(** * Afrodoctor website: the admin dashboard of [src/components/Login.tsx]

    A shallow embedding of the [ProductCatalogAdmin] component: its string
    helpers, the plan ordering of [fetchPlans], the toast list, the delete
    confirmation modal, the session gate and the five operations that call
    the backend.  The markup and the realtime subscription are left out.

    Conventions.
    - A JavaScript string is a Rocq [string]; a character is one code unit
      in the range 0..255 (the Latin-1 block), which is where every
      character class used by the component lives.
    - A JavaScript number holding an instant or a count is a [Z]; the
      [seconds] of a plan, a quotient by 1000, is a [Q] or [NaN].
    - The component's [useState] cells are the fields of the record [Admin];
      a handler is a computation in the monad [M], which threads the cells,
      the hosted backend, the clock, the pending timers and the file input
      of the page, and which models [throw] by the result [Throw].
    - A handler runs from its call to its end without another handler or
      timer in between. *)

From Stdlib Require Import List String Ascii Bool ZArith QArith Lia Lqa.
From Stdlib Require Import Permutation Sorted.
Import ListNotations.
Local Open Scope string_scope.
Local Open Scope Z_scope.

(** ** JavaScript string primitives used by the component *)

Module JS.

  (** The code unit of a character. *)
Definition code (c : ascii) : N := N_of_ascii c.

Definition between (lo hi : N) (c : ascii) : bool :=
    (N.leb lo (code c) && N.leb (code c) hi)%bool.

Definition is_digit (c : ascii) : bool := between 48 57 c.
Definition is_lower (c : ascii) : bool := between 97 122 c.
Definition is_upper (c : ascii) : bool := between 65 90 c.

  (** [WhiteSpace] and [LineTerminator] of ECMAScript, below 256:
      TAB, LF, VT, FF, CR, SP and NBSP. *)
Definition isWhiteSpace (c : ascii) : bool :=
    (between 9 13 c || N.eqb (code c) 32 || N.eqb (code c) 160)%bool.

Fixpoint trimStart (s : string) : string :=
    match s with
    | EmptyString => EmptyString
    | String c s' => if isWhiteSpace c then trimStart s' else s
    end.

Fixpoint trimEnd (s : string) : string :=
    match s with
    | EmptyString => EmptyString
    | String c s' =>
        match trimEnd s' with
        | EmptyString => if isWhiteSpace c then EmptyString
                         else String c EmptyString
        | r => String c r
        end
    end.

  (** [String.prototype.trim]. *)
Definition trim (s : string) : string := trimEnd (trimStart s).

  (** [String.prototype.split] with a one-character separator: the empty
      string splits into one empty segment. *)
Fixpoint split (sep : ascii) (s : string) : list string :=
    match s with
    | EmptyString => [EmptyString]
    | String c s' =>
        if Ascii.eqb c sep then EmptyString :: split sep s'
        else match split sep s' with
             | [] => [String c EmptyString]
             | w :: ws => String c w :: ws
             end
    end.

  (** Truthiness of a string: every string but the empty one. *)
Definition truthy (s : string) : bool :=
    match s with EmptyString => false | String _ _ => true end.

  (** [Array.prototype.join]. *)
Fixpoint join (sep : string) (l : list string) : string :=
    match l with
    | [] => EmptyString
    | [x] => x
    | x :: rest => x ++ sep ++ join sep rest
    end.

Fixpoint map_chars (f : ascii -> ascii) (s : string) : string :=
    match s with
    | EmptyString => EmptyString
    | String c s' => String (f c) (map_chars f s')
    end.

  (** One character of [String.prototype.toLowerCase]: A-Z, and the
      upper-case letters of Latin-1 (U+00C0..U+00DE but the sign U+00D7),
      move 32 places up. *)
Definition lower_char (c : ascii) : ascii :=
    if (is_upper c
        || (between 192 222 c && negb (N.eqb (code c) 215)))%bool
    then ascii_of_N (code c + 32) else c.

Definition toLowerCase (s : string) : string := map_chars lower_char s.

  (** The class [[a-z0-9.]] under the flag [i] (without [u]): the letters of
      both cases, the digits and the dot.  Canonicalisation never maps a
      code unit above 127 to one below, so no other character matches. *)
Definition in_class_alnum_dot (c : ascii) : bool :=
    (is_lower c || is_upper c || is_digit c || N.eqb (code c) 46)%bool.

  (** [s.replace(/[^a-z0-9.]/gi, '_')]. *)
Definition replace_outside_class (s : string) : string :=
    map_chars (fun c => if in_class_alnum_dot c then c else "_"%char) s.

Fixpoint string_of_uint (d : Decimal.uint) : string :=
    match d with
    | Decimal.Nil => EmptyString
    | Decimal.D0 d => String "0" (string_of_uint d)
    | Decimal.D1 d => String "1" (string_of_uint d)
    | Decimal.D2 d => String "2" (string_of_uint d)
    | Decimal.D3 d => String "3" (string_of_uint d)
    | Decimal.D4 d => String "4" (string_of_uint d)
    | Decimal.D5 d => String "5" (string_of_uint d)
    | Decimal.D6 d => String "6" (string_of_uint d)
    | Decimal.D7 d => String "7" (string_of_uint d)
    | Decimal.D8 d => String "8" (string_of_uint d)
    | Decimal.D9 d => String "9" (string_of_uint d)
    end.

  (** [Number.prototype.toString] of an integer (an instant of the clock
      never needs the exponent form): the decimal digits, after a minus sign
      below zero. *)
Definition numberToString (n : Z) : string :=
    match n with
    | Z0 => "0"
    | Zpos p => string_of_uint (Pos.to_uint p)
    | Zneg p => String "-" (string_of_uint (Pos.to_uint p))
    end.

End JS.

(** ** Feature text and file names *)

(** [newPlan.features.split(',').map(f => f.trim()).filter(Boolean)]. *)
Definition parseFeatures (s : string) : list string :=
  filter JS.truthy (map JS.trim (JS.split "," s)).

(** The [features] field of the payload built by [handleAddPlan]. *)
Definition normalizeFeatures (s : string) : string :=
  JS.join ", " (parseFeatures s).

(** [uploadFile.name.replace(/[^a-z0-9.]/gi, '_').toLowerCase()]. *)
Definition sanitizeName (name : string) : string :=
  JS.toLowerCase (JS.replace_outside_class name).

(** [safeFileName] of [handleMediaUpload], at the instant [now] read from
    [Date.now()]. *)
Definition safeFileName (now : Z) (name : string) : string :=
  JS.numberToString now ++ "_" ++ sanitizeName name.

(** ** Data model: the interfaces of the component *)

(** A JavaScript number that is a quotient of instants: a rational, or the
    [NaN] that [getTime()] gives on a text that is no date. *)
Inductive num : Type :=
| NaN
| Num (q : Q).

(** [{ seconds: number }]. *)
Record Stamp : Type := { seconds : num }.

(** A timestamp column as the backend returns it: a text, known by what
    [new Date(text).getTime()] makes of it. *)
Inductive DateText : Type :=
| Unparseable
| Iso (ms : Z).

(** [new Date(text).getTime() / 1000]. *)
Definition secondsOfText (t : DateText) : num :=
  match t with
  | Unparseable => NaN
  | Iso ms => Num (inject_Z ms / 1000)
  end.

Module HMSPlan.
Record t : Type := {
    id : string;
    name : string;
    price : string;
    features : list string;
    isPrimary : bool;
    createdAt : option Stamp
  }.
End HMSPlan.

Module NewPlanData.
Record t : Type := {
    name : string;
    price : string;
    features : string;
    isPrimary : bool
  }.
End NewPlanData.

Module MediaItem.
Record t : Type := {
    id : string;
    fileName : string;
    url : string;
    uploadedAt : Stamp
  }.
End MediaItem.

Inductive ItemType : Type := plan | media.

Module ItemToDelete.
Record t : Type := {
    id : string;
    type : ItemType;
    name : string
  }.
End ItemToDelete.

Inductive ToastType : Type := ToastSuccess | ToastError | ToastInfo.

Module ToastMessage.
Record t : Type := {
    id : string;
    message : string;
    type : ToastType
  }.
End ToastMessage.

(** [File]: the component reads its [name] only. *)
Record File : Type := { file_name_of : string }.

(** ** The ordering of plans in [fetchPlans] *)

(** [x || 0] on a number: [NaN] and zero are falsy. *)
Definition orZero (n : num) : Q :=
  match n with
  | NaN => 0
  | Num q => if Qeq_bool q 0 then 0 else q
  end.

(** [a.createdAt?.seconds || 0]. *)
Definition secondsOrZero (a : HMSPlan.t) : Q :=
  match HMSPlan.createdAt a with
  | Some st => orZero (seconds st)
  | None => 0
  end.

(** The compare function handed to [fetchedPlans.sort]. *)
Definition comparePlans (a b : HMSPlan.t) : Q :=
  if negb (Bool.eqb (HMSPlan.isPrimary a) (HMSPlan.isPrimary b))
  then (if HMSPlan.isPrimary a then -1 else 1)
  else secondsOrZero a - secondsOrZero b.

(** [Array.prototype.sort] with a compare function, which ECMAScript
    requires to be stable: an element is put in front of the first later
    element it does not compare greater than. *)
Section Sort.
Context {A : Type} (comparefn : A -> A -> Q).

Fixpoint insert (x : A) (l : list A) : list A :=
    match l with
    | [] => [x]
    | y :: l' => if Qle_bool (comparefn x y) 0 then x :: l
                 else y :: insert x l'
    end.

Definition sort (l : list A) : list A := fold_right insert [] l.
End Sort.

Definition sortPlans (l : list HMSPlan.t) : list HMSPlan.t :=
  sort comparePlans l.

(** [a] is not to be placed after [b]. *)
Definition notAfter (a b : HMSPlan.t) : Prop :=
  Qle_bool (comparePlans a b) 0 = true.


(** ** The hosted backend

    The component talks to a hosted service through its client; the service
    is no part of the repository.  It is modelled here by the interface the
    component consumes: two tables, one bucket of stored objects and the
    session, with calls that can fail for a reason the client cannot see. *)

(** An error as the component looks at it: [err?.message]. *)
Record Error : Type := { message : option string }.

Module PlanRow.
Record t : Type := {
  id : string;
  name : string;
  price : string;
  features : option string;
  is_primary : option bool;
  created_at : option DateText
}.
End PlanRow.

Module MediaRow.
Record t : Type := {
  id : string;
  file_name : string;
  url : string;
  uploaded_at : option DateText
}.
End MediaRow.

(** The row objects the component inserts. *)
Module PlanPayload.
Record t : Type := {
  name : string;
  price : string;
  features : string;
  is_primary : bool;
  created_at : DateText
}.
End PlanPayload.

Module MediaPayload.
Record t : Type := {
  file_name : string;
  url : string;
  uploaded_at : DateText
}.
End MediaPayload.

(** [{ file_name }], the projection selected before a media deletion. *)
Record ItemData : Type := { file_name : string }.

(** The signed-in user of a session. *)
Record User : Type := { email : string }.

(** [data.session], when there is one, with its [user]. *)
Record Session : Type := { user : option User }.

Definition STORAGE_BUCKET : string := "artifacts".
Definition STORAGE_PUBLIC_PATH : string := "public/media".

(** The calls the component issues, in the words of the client. *)
Inductive Call : Type :=
| AuthGetSession
| SelectAllPlans
| SelectAllMediaByUploadedAtDesc
| InsertPlan (payload : PlanPayload.t)
| InsertMedia (payload : MediaPayload.t)
| DeletePlanById (id : string)
| DeleteMediaById (id : string)
| SelectMediaFileNameById (id : string)
| StorageUpload (path : string) (file : File)
| StorageRemove (paths : list string)
| StorageGetPublicUrl (path : string).

(** How a call ended: with data, with [{ error }], or by a rejection. *)
Inductive Outcome : Type :=
| Succeeded
| ReturnedError (e : Error)
| Rejected (e : Error).

Record Event : Type := { call : Call; outcome : Outcome }.

(** What the network does to the next call: nothing, an [{ error }] result,
    or a rejected promise. *)
Inductive Fault : Type :=
| NoFault
| ErrorResult (e : Error)
| Exception (e : Error).

(** The fate of one awaited call: the time it takes and its fault. *)
Record Reply : Type := { elapsed : Z; fault : Fault }.

Module Backend.

(** Modelled from the spec: the hosted backend (relational store, object
    storage, session provider), which is external to the repository; section
    6 of the specification gives its interface: select-all, insert-one,
    delete-by-id, upload without overwrite, remove, get-public-url and
    get-current-session. *)
Record t : Type := {
  base_url : string;
  session : option Session;
  plans_table : list PlanRow.t;
  media_table : list MediaRow.t;
  objects : list string;
  next_id : Z
}.

Definition with_plans (b : t) (v : list PlanRow.t) : t :=
  {| base_url := base_url b; session := session b; plans_table := v;
     media_table := media_table b; objects := objects b;
     next_id := next_id b |}.

Definition with_media (b : t) (v : list MediaRow.t) : t :=
  {| base_url := base_url b; session := session b;
     plans_table := plans_table b; media_table := v; objects := objects b;
     next_id := next_id b |}.

Definition with_objects (b : t) (v : list string) : t :=
  {| base_url := base_url b; session := session b;
     plans_table := plans_table b; media_table := media_table b;
     objects := v; next_id := next_id b |}.

Definition with_next_id (b : t) (v : Z) : t :=
  {| base_url := base_url b; session := session b;
     plans_table := plans_table b; media_table := media_table b;
     objects := objects b; next_id := v |}.

(** Modelled from the spec: the backend-assigned, unique identifier. *)
Definition fresh_id (b : t) : string := JS.numberToString (next_id b).

(** Modelled from the spec: insert-one on the plans collection. *)
Definition insert_plan (p : PlanPayload.t) (b : t) : t :=
  let row := {| PlanRow.id := fresh_id b;
                PlanRow.name := PlanPayload.name p;
                PlanRow.price := PlanPayload.price p;
                PlanRow.features := Some (PlanPayload.features p);
                PlanRow.is_primary := Some (PlanPayload.is_primary p);
                PlanRow.created_at := Some (PlanPayload.created_at p) |} in
  with_next_id (with_plans b (plans_table b ++ [row])) (next_id b + 1).

(** Modelled from the spec: insert-one on the media collection. *)
Definition insert_media (p : MediaPayload.t) (b : t) : t :=
  let row := {| MediaRow.id := fresh_id b;
                MediaRow.file_name := MediaPayload.file_name p;
                MediaRow.url := MediaPayload.url p;
                MediaRow.uploaded_at := Some (MediaPayload.uploaded_at p) |} in
  with_next_id (with_media b (media_table b ++ [row])) (next_id b + 1).

(** Modelled from the spec: delete-by-id; an absent id deletes nothing and
    is no error. *)
Definition delete_plan (id : string) (b : t) : t :=
  with_plans b
    (filter (fun r => negb (String.eqb (PlanRow.id r) id)) (plans_table b)).

Definition delete_media (id : string) (b : t) : t :=
  with_media b
    (filter (fun r => negb (String.eqb (MediaRow.id r) id)) (media_table b)).

(** Modelled from the spec: the [single()] selection of [file_name] by id,
    an error unless exactly one row has the id. *)
Definition select_file_name (id : string) (b : t) : Error + ItemData :=
  match filter (fun r => String.eqb (MediaRow.id r) id) (media_table b) with
  | [r] => inr {| file_name := MediaRow.file_name r |}
  | _ => inl {| message := Some "JSON object requested, multiple (or no) rows returned" |}
  end.

(** Modelled from the spec: upload with overwrite off, which fails when the
    path is taken. *)
Definition upload (path : string) (b : t) : Error + t :=
  if existsb (String.eqb path) (objects b)
  then inl {| message := Some "The resource already exists" |}
  else inr (with_objects b (objects b ++ [path])).

(** Modelled from the spec: remove the stored objects at the paths. *)
Definition remove (paths : list string) (b : t) : t :=
  with_objects b
    (filter (fun o => negb (existsb (String.eqb o) paths)) (objects b)).

(** Modelled from the spec: get-public-url of a path in the bucket. *)
Definition public_url (path : string) (b : t) : string :=
  base_url b ++ "/storage/v1/object/public/" ++ STORAGE_BUCKET ++ "/" ++ path.

End Backend.

(** The instant a media row was uploaded at, when it carries one. *)
Definition uploadedInstant (r : MediaRow.t) : option Z :=
  match MediaRow.uploaded_at r with
  | Some (Iso ms) => Some ms
  | _ => None
  end.

(** Later instants first; rows without an instant before the others. *)
Definition compareUploadedDesc (a b : MediaRow.t) : Q :=
  match uploadedInstant a, uploadedInstant b with
  | None, None => 0
  | None, Some _ => -1
  | Some _, None => 1
  | Some x, Some y => inject_Z (y - x)
  end.

(** Modelled from the spec: select-all of the media collection (external
    to the repository), in descending order of [uploaded_at]. *)
Definition select_media_desc (b : Backend.t) : list MediaRow.t :=
  sort compareUploadedDesc (Backend.media_table b).

(** ** The state of the component

    One field for each [useState] cell of [ProductCatalogAdmin]. *)
Record Admin : Type := {
  plans : list HMSPlan.t;
  mediaItems : list MediaItem.t;
  loading : bool;
  authReady : bool;
  isAdmin : bool;
  error : option string;
  newPlan : NewPlanData.t;
  uploadFile : option File;
  isUploading : bool;
  uploadProgress : Z;
  isAddingPlan : bool;
  showDeleteModal : bool;
  itemToDelete : option ItemToDelete.t;
  toasts : list ToastMessage.t
}.

Definition with_plans (a : Admin) (v : list HMSPlan.t) : Admin :=
  {| plans := v; mediaItems := mediaItems a; loading := loading a;
     authReady := authReady a; isAdmin := isAdmin a; error := error a;
     newPlan := newPlan a; uploadFile := uploadFile a;
     isUploading := isUploading a; uploadProgress := uploadProgress a;
     isAddingPlan := isAddingPlan a; showDeleteModal := showDeleteModal a;
     itemToDelete := itemToDelete a; toasts := toasts a |}.

Definition with_mediaItems (a : Admin) (v : list MediaItem.t) : Admin :=
  {| plans := plans a; mediaItems := v; loading := loading a;
     authReady := authReady a; isAdmin := isAdmin a; error := error a;
     newPlan := newPlan a; uploadFile := uploadFile a;
     isUploading := isUploading a; uploadProgress := uploadProgress a;
     isAddingPlan := isAddingPlan a; showDeleteModal := showDeleteModal a;
     itemToDelete := itemToDelete a; toasts := toasts a |}.

Definition with_loading (a : Admin) (v : bool) : Admin :=
  {| plans := plans a; mediaItems := mediaItems a; loading := v;
     authReady := authReady a; isAdmin := isAdmin a; error := error a;
     newPlan := newPlan a; uploadFile := uploadFile a;
     isUploading := isUploading a; uploadProgress := uploadProgress a;
     isAddingPlan := isAddingPlan a; showDeleteModal := showDeleteModal a;
     itemToDelete := itemToDelete a; toasts := toasts a |}.

Definition with_authReady (a : Admin) (v : bool) : Admin :=
  {| plans := plans a; mediaItems := mediaItems a; loading := loading a;
     authReady := v; isAdmin := isAdmin a; error := error a;
     newPlan := newPlan a; uploadFile := uploadFile a;
     isUploading := isUploading a; uploadProgress := uploadProgress a;
     isAddingPlan := isAddingPlan a; showDeleteModal := showDeleteModal a;
     itemToDelete := itemToDelete a; toasts := toasts a |}.

Definition with_isAdmin (a : Admin) (v : bool) : Admin :=
  {| plans := plans a; mediaItems := mediaItems a; loading := loading a;
     authReady := authReady a; isAdmin := v; error := error a;
     newPlan := newPlan a; uploadFile := uploadFile a;
     isUploading := isUploading a; uploadProgress := uploadProgress a;
     isAddingPlan := isAddingPlan a; showDeleteModal := showDeleteModal a;
     itemToDelete := itemToDelete a; toasts := toasts a |}.

Definition with_error (a : Admin) (v : option string) : Admin :=
  {| plans := plans a; mediaItems := mediaItems a; loading := loading a;
     authReady := authReady a; isAdmin := isAdmin a; error := v;
     newPlan := newPlan a; uploadFile := uploadFile a;
     isUploading := isUploading a; uploadProgress := uploadProgress a;
     isAddingPlan := isAddingPlan a; showDeleteModal := showDeleteModal a;
     itemToDelete := itemToDelete a; toasts := toasts a |}.

Definition with_newPlan (a : Admin) (v : NewPlanData.t) : Admin :=
  {| plans := plans a; mediaItems := mediaItems a; loading := loading a;
     authReady := authReady a; isAdmin := isAdmin a; error := error a;
     newPlan := v; uploadFile := uploadFile a;
     isUploading := isUploading a; uploadProgress := uploadProgress a;
     isAddingPlan := isAddingPlan a; showDeleteModal := showDeleteModal a;
     itemToDelete := itemToDelete a; toasts := toasts a |}.

Definition with_uploadFile (a : Admin) (v : option File) : Admin :=
  {| plans := plans a; mediaItems := mediaItems a; loading := loading a;
     authReady := authReady a; isAdmin := isAdmin a; error := error a;
     newPlan := newPlan a; uploadFile := v; isUploading := isUploading a;
     uploadProgress := uploadProgress a; isAddingPlan := isAddingPlan a;
     showDeleteModal := showDeleteModal a; itemToDelete := itemToDelete a;
     toasts := toasts a |}.

Definition with_isUploading (a : Admin) (v : bool) : Admin :=
  {| plans := plans a; mediaItems := mediaItems a; loading := loading a;
     authReady := authReady a; isAdmin := isAdmin a; error := error a;
     newPlan := newPlan a; uploadFile := uploadFile a; isUploading := v;
     uploadProgress := uploadProgress a; isAddingPlan := isAddingPlan a;
     showDeleteModal := showDeleteModal a; itemToDelete := itemToDelete a;
     toasts := toasts a |}.

Definition with_uploadProgress (a : Admin) (v : Z) : Admin :=
  {| plans := plans a; mediaItems := mediaItems a; loading := loading a;
     authReady := authReady a; isAdmin := isAdmin a; error := error a;
     newPlan := newPlan a; uploadFile := uploadFile a;
     isUploading := isUploading a; uploadProgress := v;
     isAddingPlan := isAddingPlan a; showDeleteModal := showDeleteModal a;
     itemToDelete := itemToDelete a; toasts := toasts a |}.

Definition with_isAddingPlan (a : Admin) (v : bool) : Admin :=
  {| plans := plans a; mediaItems := mediaItems a; loading := loading a;
     authReady := authReady a; isAdmin := isAdmin a; error := error a;
     newPlan := newPlan a; uploadFile := uploadFile a;
     isUploading := isUploading a; uploadProgress := uploadProgress a;
     isAddingPlan := v; showDeleteModal := showDeleteModal a;
     itemToDelete := itemToDelete a; toasts := toasts a |}.

Definition with_showDeleteModal (a : Admin) (v : bool) : Admin :=
  {| plans := plans a; mediaItems := mediaItems a; loading := loading a;
     authReady := authReady a; isAdmin := isAdmin a; error := error a;
     newPlan := newPlan a; uploadFile := uploadFile a;
     isUploading := isUploading a; uploadProgress := uploadProgress a;
     isAddingPlan := isAddingPlan a; showDeleteModal := v;
     itemToDelete := itemToDelete a; toasts := toasts a |}.

Definition with_itemToDelete (a : Admin) (v : option ItemToDelete.t) : Admin :=
  {| plans := plans a; mediaItems := mediaItems a; loading := loading a;
     authReady := authReady a; isAdmin := isAdmin a; error := error a;
     newPlan := newPlan a; uploadFile := uploadFile a;
     isUploading := isUploading a; uploadProgress := uploadProgress a;
     isAddingPlan := isAddingPlan a; showDeleteModal := showDeleteModal a;
     itemToDelete := v; toasts := toasts a |}.

Definition with_toasts (a : Admin) (v : list ToastMessage.t) : Admin :=
  {| plans := plans a; mediaItems := mediaItems a; loading := loading a;
     authReady := authReady a; isAdmin := isAdmin a; error := error a;
     newPlan := newPlan a; uploadFile := uploadFile a;
     isUploading := isUploading a; uploadProgress := uploadProgress a;
     isAddingPlan := isAddingPlan a; showDeleteModal := showDeleteModal a;
     itemToDelete := itemToDelete a; toasts := v |}.

(** The cells at the first render. *)
Definition initialAdmin : Admin :=
  {| plans := []; mediaItems := []; loading := true; authReady := false;
     isAdmin := false; error := None;
     newPlan := {| NewPlanData.name := ""; NewPlanData.price := "";
                   NewPlanData.features := "";
                   NewPlanData.isPrimary := false |};
     uploadFile := None; isUploading := false; uploadProgress := 0;
     isAddingPlan := false; showDeleteModal := false; itemToDelete := None;
     toasts := [] |}.

(** ** The runtime: clock, timers and network *)

(** What a pending [setTimeout] callback of the component does. *)
Inductive TimerAction : Type :=
| ExpireToast (id : string)
| ResetUploadProgress.

Record Timer : Type := { due : Z; action : TimerAction }.

(** The component in its environment.  [replies] scripts the fate of the
    awaited calls to come, [log] records the calls issued so far (the oldest
    first), and [fileInput] is the value of the element [file-upload] of the
    page, [None] when the page holds no such element. *)
Record Sys : Type := {
  admin : Admin;
  backend : Backend.t;
  clock : Z;
  replies : list Reply;
  log : list Event;
  timers : list Timer;
  fileInput : option string
}.

Definition with_admin (s : Sys) (v : Admin) : Sys :=
  {| admin := v; backend := backend s; clock := clock s;
     replies := replies s; log := log s; timers := timers s;
     fileInput := fileInput s |}.

Definition with_timers (s : Sys) (v : list Timer) : Sys :=
  {| admin := admin s; backend := backend s; clock := clock s;
     replies := replies s; log := log s; timers := v;
     fileInput := fileInput s |}.

Definition with_clock (s : Sys) (v : Z) : Sys :=
  {| admin := admin s; backend := backend s; clock := v;
     replies := replies s; log := log s; timers := timers s;
     fileInput := fileInput s |}.

Definition with_fileInput (s : Sys) (v : option string) : Sys :=
  {| admin := admin s; backend := backend s; clock := clock s;
     replies := replies s; log := log s; timers := timers s;
     fileInput := v |}.

(** ** The monad of handlers: state, with [throw] *)

Inductive Res (A : Type) : Type :=
| Ok (a : A)
| Throw (e : Error).
Arguments Ok {A} a.
Arguments Throw {A} e.

Definition M (A : Type) : Type := Sys -> Res A * Sys.

Definition ret {A : Type} (a : A) : M A := fun s => (Ok a, s).

Definition bind {A B : Type} (m : M A) (k : A -> M B) : M B :=
  fun s => match m s with
           | (Ok a, s') => k a s'
           | (Throw e, s') => (Throw e, s')
           end.

Definition throw {A : Type} (e : Error) : M A := fun s => (Throw e, s).

(** [try { body } catch (err) { handler }]. *)
Definition try_catch {A : Type} (body : M A) (handler : Error -> M A) : M A :=
  fun s => match body s with
           | (Ok a, s') => (Ok a, s')
           | (Throw e, s') => handler e s'
           end.

(** [try { body } finally { final }]. *)
Definition try_finally {A : Type} (body : M A) (final : M unit) : M A :=
  fun s => match body s with
           | (r, s') => match final s' with
                        | (Ok _, s'') => (r, s'')
                        | (Throw e, s'') => (Throw e, s'')
                        end
           end.

(** Two handlers run for two events, one after the other: the second runs
    in the state the first leaves, also when the promise of the first is
    rejected. *)
Definition thenEvent {A B : Type} (first : M A) (second : M B) : M B :=
  fun s => second (snd (first s)).

Declare Scope js_scope.
Delimit Scope js_scope with js.
Notation "x <- c1 ;; c2" := (bind c1 (fun x => c2))
  (at level 61, c1 at next level, right associativity) : js_scope.
Notation "c1 ;; c2" := (bind c1 (fun _ => c2))
  (at level 61, right associativity) : js_scope.
Local Open Scope js_scope.

(** The state a handler leaves, and whether it returned or threw. *)
Definition exec {A : Type} (m : M A) (s : Sys) : Sys := snd (m s).
Definition result {A : Type} (m : M A) (s : Sys) : Res A := fst (m s).

(** The cells as the handler's closure captured them. *)
Definition cells : M Admin := fun s => (Ok (admin s), s).

Definition setCell (f : Admin -> Admin) : M unit :=
  fun s => (Ok tt, with_admin s (f (admin s))).

Definition setPlans (v : list HMSPlan.t) : M unit :=
  setCell (fun a => with_plans a v).
Definition setMediaItems (v : list MediaItem.t) : M unit :=
  setCell (fun a => with_mediaItems a v).
Definition setAuthReady (v : bool) : M unit :=
  setCell (fun a => with_authReady a v).
Definition setIsAdmin (v : bool) : M unit :=
  setCell (fun a => with_isAdmin a v).
Definition setError (v : option string) : M unit :=
  setCell (fun a => with_error a v).
Definition setNewPlan (v : NewPlanData.t) : M unit :=
  setCell (fun a => with_newPlan a v).
Definition setUploadFile (v : option File) : M unit :=
  setCell (fun a => with_uploadFile a v).
Definition setIsUploading (v : bool) : M unit :=
  setCell (fun a => with_isUploading a v).
Definition setUploadProgress (v : Z) : M unit :=
  setCell (fun a => with_uploadProgress a v).
Definition setIsAddingPlan (v : bool) : M unit :=
  setCell (fun a => with_isAddingPlan a v).
Definition setShowDeleteModal (v : bool) : M unit :=
  setCell (fun a => with_showDeleteModal a v).
Definition setItemToDelete (v : option ItemToDelete.t) : M unit :=
  setCell (fun a => with_itemToDelete a v).

(** [setToasts(prev => f(prev))]. *)
Definition setToasts (f : list ToastMessage.t -> list ToastMessage.t) : M unit :=
  setCell (fun a => with_toasts a (f (toasts a))).

(** [Date.now()]. *)
Definition Date_now : M Z := fun s => (Ok (clock s), s).

(** [setTimeout(callback, delay)]. *)
Definition setTimeout (act : TimerAction) (delay : Z) : M unit :=
  fun s => (Ok tt, with_timers s
                     (timers s ++ [{| due := clock s + delay; action := act |}])).

(** [await new Promise(resolve => setTimeout(resolve, delay))]. *)
Definition sleep (delay : Z) : M unit :=
  fun s => (Ok tt, with_clock s (clock s + delay)).

Definition logged (s : Sys) (c : Call) (o : Outcome) : Sys :=
  {| admin := admin s; backend := backend s; clock := clock s;
     replies := replies s;
     log := log s ++ [{| call := c; outcome := o |}];
     timers := timers s;
     fileInput := fileInput s |}.

Definition with_backend (s : Sys) (v : Backend.t) : Sys :=
  {| admin := admin s; backend := v; clock := clock s;
     replies := replies s; log := log s; timers := timers s;
     fileInput := fileInput s |}.

(** The reply that the next awaited call meets; past the end of the script
    calls take no time and the network does not fail them. *)
Definition nextReply (s : Sys) : Reply :=
  hd {| elapsed := 0; fault := NoFault |} (replies s).

Definition nextFault (s : Sys) : Fault := fault (nextReply s).

(** The moment the awaited call settles. *)
Definition arrive (s : Sys) : Sys :=
  {| admin := admin s; backend := backend s;
     clock := clock s + Z.max 0 (elapsed (nextReply s));
     replies := tl (replies s); log := log s; timers := timers s;
     fileInput := fileInput s |}.

(** One awaited call of the client.  The next reply of the script says how
    long the call takes and whether the network fails it; else the backend
    performs it, and may refuse it for a reason of its own. *)
Definition await {A : Type} (c : Call)
    (perform : Backend.t -> (Error + A) * Backend.t) : M (Error + A) :=
  fun s =>
    let s1 := arrive s in
    match nextFault s with
    | Exception e => (Throw e, logged s1 c (Rejected e))
    | ErrorResult e => (Ok (inl e), logged s1 c (ReturnedError e))
    | NoFault =>
        match perform (backend s1) with
        | (inl e, b) =>
            (Ok (inl e), logged (with_backend s1 b) c (ReturnedError e))
        | (inr a, b) =>
            (Ok (inr a), logged (with_backend s1 b) c Succeeded)
        end
    end.

(** [if (error) throw error]. *)
Definition orThrow {A : Type} (r : Error + A) : M A :=
  match r with
  | inl e => throw e
  | inr a => ret a
  end.

(** [storage.from(bucket).getPublicUrl(path)]: computed by the client, no
    request is awaited. *)
Definition getPublicUrl (path : string) : M string :=
  fun s => (Ok (Backend.public_url path (backend s)),
            logged s (StorageGetPublicUrl path) Succeeded).

(** The [TypeError] of a write to a property of [null]. *)
Definition typeError : Error :=
  {| message := Some "Cannot set properties of null (setting 'value')" |}.

(** [(document.getElementById('file-upload') as HTMLInputElement).value = '']:
    the element is looked up in the page as it is when the statement runs,
    and the write throws when there is none. *)
Definition clearFileInput : M unit :=
  fun s => match fileInput s with
           | Some _ => (Ok tt, with_fileInput s (Some ""))
           | None => (Throw typeError, s)
           end.

(** React drops the state updates of a component that is unmounted. *)
Definition whenMounted (mounted : bool) (updates : M unit) : M unit :=
  if mounted then updates else ret tt.

(** ** Toasts *)

(** The double quote of the template literals. *)
Definition dq : string := String (ascii_of_N 34) EmptyString.

Definition otherThan (id : string) (toast : ToastMessage.t) : bool :=
  negb (String.eqb (ToastMessage.id toast) id).

Definition addToast (message : string) (type : ToastType) : M unit :=
  now <- Date_now ;;
  let id := JS.numberToString now in
  setToasts (fun prev => (prev ++ [{| ToastMessage.id := id;
                                      ToastMessage.message := message;
                                      ToastMessage.type := type |}])%list) ;;
  setTimeout (ExpireToast id) 5000.

Definition removeToast (id : string) : M unit :=
  setToasts (fun prev => filter (otherThan id) prev).

(** The callback of a timer, run when the timer fires. *)
Definition fire (act : TimerAction) : M unit :=
  match act with
  | ExpireToast id => setToasts (fun prev => filter (otherThan id) prev)
  | ResetUploadProgress => setUploadProgress 0
  end.

Fixpoint fireAll (acts : list TimerAction) : M unit :=
  match acts with
  | [] => ret tt
  | act :: rest => fire act ;; fireAll rest
  end.

(** The event loop lets [dt] milliseconds pass: the timers that are due
    fire, in the order they were set. *)
Definition elapse (dt : Z) : M unit :=
  fun s =>
    let now := clock s + dt in
    let ready := filter (fun t => due t <=? now) (timers s) in
    let waiting := filter (fun t => negb (due t <=? now)) (timers s) in
    fireAll (map action ready) (with_timers (with_clock s now) waiting).

(** ** The session gate *)

(** The effect run at mount.  [mounted] is the flag of the effect's closure
    as it stands when [getSession] settles; the clean-up that lowers it runs
    at unmount only, so the flag is down exactly when the component is gone,
    and the updates of the [catch] block are then dropped by React. *)
Definition authEffect (mounted : bool) : M unit :=
  try_catch
    (r <- await AuthGetSession (fun b => (inr (Backend.session b), b)) ;;
     let user := match r with
                 | inr (Some session) => user session
                 | _ => None
                 end in
     if negb mounted then ret tt
     else
       setIsAdmin (match user with Some _ => true | None => false end) ;;
       setAuthReady true)
    (fun _ =>
       whenMounted mounted
         (setError (Some "Failed to initialize authentication. Is Supabase client configured?") ;;
          setAuthReady true)).

(** What the main render returns. *)
Inductive View : Type :=
| Initializing
| AccessDenied
| Dashboard.

Definition render (a : Admin) : View :=
  if negb (authReady a) then Initializing
  else if negb (isAdmin a) then AccessDenied
  else Dashboard.

(** ** Fetching the two collections *)

Definition planOfRow (d : PlanRow.t) : HMSPlan.t :=
  {| HMSPlan.id := PlanRow.id d;
     HMSPlan.name := PlanRow.name d;
     HMSPlan.price := PlanRow.price d;
     HMSPlan.features :=
       match PlanRow.features d with
       | Some f => if JS.truthy f then parseFeatures f else []
       | None => []
       end;
     HMSPlan.isPrimary :=
       match PlanRow.is_primary d with Some b => b | None => false end;
     HMSPlan.createdAt :=
       match PlanRow.created_at d with
       | Some t => Some {| seconds := secondsOfText t |}
       | None => None
       end |}.

Definition mediaOfRow (d : MediaRow.t) : MediaItem.t :=
  {| MediaItem.id := MediaRow.id d;
     MediaItem.fileName := MediaRow.file_name d;
     MediaItem.url := MediaRow.url d;
     MediaItem.uploadedAt :=
       match MediaRow.uploaded_at d with
       | Some t => {| seconds := secondsOfText t |}
       | None => {| seconds := Num 0 |}
       end |}.

Definition fetchPlans : M unit :=
  try_catch
    (r <- await SelectAllPlans (fun b => (inr (Backend.plans_table b), b)) ;;
     data <- orThrow r ;;
     let fetchedPlans := map planOfRow data in
     setPlans (sortPlans fetchedPlans) ;;
     setError None)
    (fun _ => setError (Some "Failed to fetch plans.")).

Definition fetchMedia : M unit :=
  try_catch
    (r <- await SelectAllMediaByUploadedAtDesc
            (fun b => (inr (select_media_desc b), b)) ;;
     data <- orThrow r ;;
     let fetchedMedia := map mediaOfRow data in
     setMediaItems fetchedMedia ;;
     setError None)
    (fun _ => setError (Some "Failed to fetch media.")).

(** ** Plans: add, and prompt for deletion *)

Definition emptyNewPlan : NewPlanData.t :=
  {| NewPlanData.name := ""; NewPlanData.price := "";
     NewPlanData.features := ""; NewPlanData.isPrimary := false |}.

Definition handleAddPlan : M unit :=
  c <- cells ;;
  if negb (isAdmin c)
  then addToast "Permission Denied: You must be an administrator." ToastError
  else
    setIsAddingPlan true ;;
    try_finally
      (try_catch
         (now <- Date_now ;;
          let payload :=
            {| PlanPayload.name := JS.trim (NewPlanData.name (newPlan c));
               PlanPayload.price := JS.trim (NewPlanData.price (newPlan c));
               PlanPayload.features :=
                 normalizeFeatures (NewPlanData.features (newPlan c));
               PlanPayload.is_primary := NewPlanData.isPrimary (newPlan c);
               PlanPayload.created_at := Iso now |} in
          r <- await (InsertPlan payload)
                 (fun b => (inr tt, Backend.insert_plan payload b)) ;;
          orThrow r ;;
          fetchPlans ;;
          setNewPlan emptyNewPlan ;;
          addToast ("Plan " ++ dq ++ PlanPayload.name payload ++ dq
                    ++ " added successfully!") ToastSuccess)
         (fun _ =>
            addToast "Failed to add plan. Check Supabase RLS policies."
                     ToastError))
      (setIsAddingPlan false).

Definition handleDeletePlanPrompt (p : HMSPlan.t) : M unit :=
  c <- cells ;;
  if negb (isAdmin c) then ret tt
  else
    setItemToDelete (Some {| ItemToDelete.id := HMSPlan.id p;
                             ItemToDelete.type := plan;
                             ItemToDelete.name := HMSPlan.name p |}) ;;
    setShowDeleteModal true.

(** ** Media: select, upload, and prompt for deletion *)

Definition handleFileChange (files : option File) : M unit :=
  match files with
  | Some f =>
      setUploadFile (Some f) ;;
      addToast ("File selected: " ++ file_name_of f) ToastInfo
  | None => setUploadFile None
  end.

(** [for (let i = 0; i <= 100; i += 10)], over the values [i] takes. *)
Fixpoint progressLoop (steps : list Z) : M unit :=
  match steps with
  | [] => ret tt
  | i :: rest => setUploadProgress i ;; sleep 50 ;; progressLoop rest
  end.

Definition progressSteps : list Z :=
  [0; 10; 20; 30; 40; 50; 60; 70; 80; 90; 100].

Definition uploadFailedText (err : Error) : string :=
  match message err with
  | Some m => if JS.truthy m then m
              else "Upload failed. Check storage policies."
  | None => "Upload failed. Check storage policies."
  end.

Definition handleMediaUpload : M unit :=
  c <- cells ;;
  if negb (isAdmin c)
  then addToast "Permission Denied: You must be an administrator." ToastError
  else
    match uploadFile c with
    | None => addToast "Please select a file to upload." ToastError
    | Some file =>
        setIsUploading true ;;
        setUploadProgress 0 ;;
        setError None ;;
        try_finally
          (try_catch
             (now <- Date_now ;;
              let safe := safeFileName now (file_name_of file) in
              let storagePath := STORAGE_PUBLIC_PATH ++ "/" ++ safe in
              addToast ("Starting upload: " ++ file_name_of file ++ "...")
                       ToastInfo ;;
              r <- await (StorageUpload storagePath file)
                     (fun b => match Backend.upload storagePath b with
                               | inl e => (inl e, b)
                               | inr b' => (inr tt, b')
                               end) ;;
              orThrow r ;;
              progressLoop progressSteps ;;
              publicUrl <- getPublicUrl storagePath ;;
              stamp <- Date_now ;;
              let row := {| MediaPayload.file_name := safe;
                            MediaPayload.url := publicUrl;
                            MediaPayload.uploaded_at := Iso stamp |} in
              r' <- await (InsertMedia row)
                      (fun b => (inr tt, Backend.insert_media row b)) ;;
              orThrow r' ;;
              fetchMedia ;;
              setUploadFile None ;;
              addToast ("Image " ++ dq ++ file_name_of file ++ dq
                        ++ " uploaded successfully!") ToastSuccess)
             (fun err => addToast (uploadFailedText err) ToastError))
          (setIsUploading false ;;
           setTimeout ResetUploadProgress 500 ;;
           clearFileInput)
    end.

Definition handleDeleteMediaPrompt (mediaItem : MediaItem.t) : M unit :=
  c <- cells ;;
  if negb (isAdmin c) then ret tt
  else
    setItemToDelete (Some {| ItemToDelete.id := MediaItem.id mediaItem;
                             ItemToDelete.type := media;
                             ItemToDelete.name := MediaItem.fileName mediaItem |}) ;;
    setShowDeleteModal true.

(** ** Confirmed deletion *)

Definition typeText (t : ItemType) : string :=
  match t with plan => "plan" | media => "media" end.

Definition deletePlan (id name : string) : M unit :=
  r <- await (DeletePlanById id)
         (fun b => (inr tt, Backend.delete_plan id b)) ;;
  orThrow r ;;
  fetchPlans ;;
  addToast ("Plan " ++ dq ++ name ++ dq ++ " deleted successfully!")
           ToastSuccess.

Definition deleteMedia (id name : string) : M unit :=
  r <- await (SelectMediaFileNameById id)
         (fun b => (match Backend.select_file_name id b with
                    | inl e => inl e
                    | inr d => inr (Some d)
                    end, b)) ;;
  itemData <- match r with
              | inl fetchError => throw fetchError
              | inr None => throw {| message := Some "Media not found" |}
              | inr (Some d) => ret d
              end ;;
  let filePath := STORAGE_PUBLIC_PATH ++ "/" ++ file_name itemData in
  r1 <- await (StorageRemove [filePath])
          (fun b => (inr tt, Backend.remove [filePath] b)) ;;
  orThrow r1 ;;
  r2 <- await (DeleteMediaById id)
          (fun b => (inr tt, Backend.delete_media id b)) ;;
  orThrow r2 ;;
  fetchMedia ;;
  addToast ("Media " ++ dq ++ name ++ dq ++ " deleted successfully!")
           ToastSuccess.

Definition confirmDeletion : M unit :=
  c <- cells ;;
  match itemToDelete c with
  | None => ret tt
  | Some item =>
      setShowDeleteModal false ;;
      let id := ItemToDelete.id item in
      let type := ItemToDelete.type item in
      let name := ItemToDelete.name item in
      if negb (isAdmin c)
      then addToast "Permission Denied: You must be an administrator."
                    ToastError
      else
        try_finally
          (try_catch
             (match type with
              | plan => deletePlan id name
              | media => deleteMedia id name
              end)
             (fun _ =>
                addToast ("Failed to delete " ++ typeText type ++ " " ++ dq
                          ++ name ++ dq ++ ". Check RLS.") ToastError))
          (setItemToDelete None)
  end.

(** ** The confirmation modal *)

(** What [DeleteConfirmationModal] shows: nothing, or the pending item. *)
Definition DeleteConfirmationModal (a : Admin) : option ItemToDelete.t :=
  if (negb (showDeleteModal a)
      || match itemToDelete a with None => true | Some _ => false end)%bool
  then None
  else itemToDelete a.

(** The [onClick] of the modal's Cancel button. *)
Definition cancelDeletion : M unit := setShowDeleteModal false.

(** What the user can do about a deletion before confirming it. *)
Inductive PromptEvent : Type :=
| ClickDeletePlan (p : HMSPlan.t)
| ClickDeleteMedia (m : MediaItem.t)
| ClickCancel.

Definition onPrompt (e : PromptEvent) : M unit :=
  match e with
  | ClickDeletePlan p => handleDeletePlanPrompt p
  | ClickDeleteMedia m => handleDeleteMediaPrompt m
  | ClickCancel => cancelDeletion
  end.

Fixpoint onPrompts (es : list PromptEvent) : M unit :=
  match es with
  | [] => ret tt
  | e :: rest => onPrompt e ;; onPrompts rest
  end.

(** ** Predicates used to state the properties *)

Fixpoint all_chars (p : ascii -> bool) (s : string) : bool :=
  match s with
  | EmptyString => true
  | String c s' => (p c && all_chars p s')%bool
  end.

(** A letter, a digit or a dot. *)
Definition alnum_or_dot (c : ascii) : bool :=
  (JS.is_lower c || JS.is_upper c || JS.is_digit c
   || N.eqb (JS.code c) 46)%bool.

(** A lower-case letter, a digit, a dot or an underscore. *)
Definition stored_char (c : ascii) : bool :=
  (JS.is_lower c || JS.is_digit c || N.eqb (JS.code c) 46
   || N.eqb (JS.code c) 95)%bool.


(** ** Sample states, on which the properties are exercised *)

Module Sample.

Definition gold : PlanRow.t :=
  {| PlanRow.id := "3"; PlanRow.name := "Gold"; PlanRow.price := "Contact";
     PlanRow.features := Some "Wifi, Support, Training";
     PlanRow.is_primary := Some true;
     PlanRow.created_at := Some (Iso 1700000003000) |}.

Definition pro : PlanRow.t :=
  {| PlanRow.id := "1"; PlanRow.name := "Pro"; PlanRow.price := "$30";
     PlanRow.features := Some "Wifi,Support";
     PlanRow.is_primary := Some false;
     PlanRow.created_at := Some (Iso 1700000002000) |}.

Definition starter : PlanRow.t :=
  {| PlanRow.id := "2"; PlanRow.name := "Starter"; PlanRow.price := "$5";
     PlanRow.features := None;
     PlanRow.is_primary := None;
     PlanRow.created_at := Some (Iso 1700000001000) |}.

Definition photo : MediaRow.t :=
  {| MediaRow.id := "4"; MediaRow.file_name := "1700000000500_ward.png";
     MediaRow.url := "https://example.supabase.co/storage/v1/object/public/artifacts/public/media/1700000000500_ward.png";
     MediaRow.uploaded_at := Some (Iso 1700000000500) |}.

Definition store : Backend.t :=
  {| Backend.base_url := "https://example.supabase.co";
     Backend.session := Some {| user := Some {| email := "admin@hsv.co.ug" |} |};
     Backend.plans_table := [pro; starter; gold];
     Backend.media_table := [photo];
     Backend.objects := ["public/media/1700000000500_ward.png"];
     Backend.next_id := 5 |}.

(** The dashboard of a signed-in user, in step with the store. *)
Definition dashboard : Admin :=
  {| plans := sortPlans (map planOfRow [pro; starter; gold]);
     mediaItems := map mediaOfRow [photo];
     loading := false; authReady := true; isAdmin := true; error := None;
     newPlan := {| NewPlanData.name := "Basic"; NewPlanData.price := "$10";
                   NewPlanData.features := "Wifi, Support";
                   NewPlanData.isPrimary := false |};
     uploadFile := Some {| file_name_of := "My Photo!.png" |};
     isUploading := false; uploadProgress := 0; isAddingPlan := false;
     showDeleteModal := false; itemToDelete := None; toasts := [] |}.

(** A system whose network does what [script] says. *)
Definition system (a : Admin) (script : list Reply) : Sys :=
  {| admin := a; backend := store; clock := 1700000010000;
     replies := script; log := []; timers := [];
     fileInput := Some "C:\fakepath\My Photo!.png" |}.

Definition quiet : Sys := system dashboard [].

Definition denied : Error := {| message := Some "permission denied" |}.

End Sample.

(** The user that the session check yields: the [user] of the session of
    the backend, unless the network fails the call. *)
Definition sessionUser (s : Sys) : option User :=
  match nextFault s with
  | NoFault => match Backend.session (backend s) with
               | Some session => user session
               | None => None
               end
  | _ => None
  end.

(** The calls a run of a handler issues: what it appends to the log. *)
Definition issued {A : Type} (m : M A) (s : Sys) : list Event :=
  skipn (List.length (log s)) (log (exec m s)).

(** What the prompt handlers and Cancel leave alone. *)
Definition untouched (s s' : Sys) : Prop :=
  log s' = log s /\ backend s' = backend s /\
  plans (admin s') = plans (admin s) /\
  mediaItems (admin s') = mediaItems (admin s).

(** The five operations that call the backend. *)
Inductive Operation : Type :=
| FetchPlans
| FetchMedia
| AddPlan
| UploadMedia
| ConfirmDeletion.

Definition run (op : Operation) : M unit :=
  match op with
  | FetchPlans => fetchPlans
  | FetchMedia => fetchMedia
  | AddPlan => handleAddPlan
  | UploadMedia => handleMediaUpload
  | ConfirmDeletion => confirmDeletion
  end.

(** The select-all of [fetchPlans] and [fetchMedia]. *)
Definition isFetch (c : Call) : bool :=
  match c with
  | SelectAllPlans | SelectAllMediaByUploadedAtDesc => true
  | _ => false
  end.

(** How the failed call [ev] shows in the state [s'] that an operation
    started in [s] leaves: the two collections are as they were; a failed
    select-all left its text in the [error] cell; any other failed call
    ended in an error toast, after no success toast. *)
Definition failureReported (s s' : Sys) (ev : Event) : Prop :=
  plans (admin s') = plans (admin s) /\
  mediaItems (admin s') = mediaItems (admin s) /\
  if isFetch (call ev)
  then error (admin s') = Some "Failed to fetch plans." \/
       error (admin s') = Some "Failed to fetch media."
  else exists added t,
      toasts (admin s') = (toasts (admin s) ++ added ++ [t])%list /\
      ToastMessage.type t = ToastError /\
      Forall (fun x => ToastMessage.type x <> ToastSuccess) added.

(** A run that did not throw and reported every failed call. *)
Definition caught (s : Sys) (outcome_of_run : Res unit * Sys) : Prop :=
  fst outcome_of_run = Ok tt /\
  forall ev,
    In ev (skipn (List.length (log s)) (log (snd outcome_of_run))) ->
    outcome ev <> Succeeded ->
    failureReported s (snd outcome_of_run) ev.

(** The pending deletion of the sample photo, and systems that have it. *)
Definition pendingPhoto : ItemToDelete.t :=
  {| ItemToDelete.id := "4"; ItemToDelete.type := media;
     ItemToDelete.name := "1700000000500_ward.png" |}.

Definition confirming (script : list Reply) : Sys :=
  Sample.system
    (with_showDeleteModal
       (with_itemToDelete Sample.dashboard (Some pendingPhoto)) true)
    script.

Definition fine (ms : Z) : Reply := {| elapsed := ms; fault := NoFault |}.

Definition failing (ms : Z) : Reply :=
  {| elapsed := ms; fault := ErrorResult Sample.denied |}.

(** An upload that is refused, on a page that no longer holds the file
    input. *)
Definition detached : Sys :=
  with_fileInput (Sample.system Sample.dashboard [failing 30]) None.

(** A dashboard whose plan form holds a feature text that is not
    normalized. *)
Definition drafting : Sys :=
  Sample.system
    (with_newPlan Sample.dashboard
       {| NewPlanData.name := " Clinic "; NewPlanData.price := "$20";
          NewPlanData.features := "a, ,b,,c ";
          NewPlanData.isPrimary := false |})
    [].

(** The sanitization in the words of the specification: a letter, a digit
    or a dot is kept, in lower case, and any other character is replaced by
    an underscore. *)
Definition lowercasedOrUnderscore (name : string) : string :=
  JS.map_chars
    (fun c => if JS.in_class_alnum_dot c then JS.lower_char c else "_"%char)
    name.

(** ** The plan form, the file input and the toast buttons *)

(** The target of a change event of the plan form: one of the four inputs
    the handler is attached to, the text inputs [name] and [price], the
    checkbox [isPrimary] and the text area [features], with what it holds. *)
Inductive PlanInput : Type :=
| NameInput (value : string)
| PriceInput (value : string)
| IsPrimaryInput (checked : bool)
| FeaturesInput (value : string).

(** [{ ...prev, [name]: type === 'checkbox' ? checked : value }]. *)
Definition editNewPlan (target : PlanInput) (prev : NewPlanData.t)
  : NewPlanData.t :=
  match target with
  | NameInput v =>
      {| NewPlanData.name := v; NewPlanData.price := NewPlanData.price prev;
         NewPlanData.features := NewPlanData.features prev;
         NewPlanData.isPrimary := NewPlanData.isPrimary prev |}
  | PriceInput v =>
      {| NewPlanData.name := NewPlanData.name prev; NewPlanData.price := v;
         NewPlanData.features := NewPlanData.features prev;
         NewPlanData.isPrimary := NewPlanData.isPrimary prev |}
  | IsPrimaryInput b =>
      {| NewPlanData.name := NewPlanData.name prev;
         NewPlanData.price := NewPlanData.price prev;
         NewPlanData.features := NewPlanData.features prev;
         NewPlanData.isPrimary := b |}
  | FeaturesInput v =>
      {| NewPlanData.name := NewPlanData.name prev;
         NewPlanData.price := NewPlanData.price prev;
         NewPlanData.features := v;
         NewPlanData.isPrimary := NewPlanData.isPrimary prev |}
  end.

Definition handleNewPlanChange (target : PlanInput) : M unit :=
  setCell (fun a => with_newPlan a (editNewPlan target (newPlan a))).

(** What the user can do on the dashboard. *)
Inductive UiEvent : Type :=
| EditPlanForm (target : PlanInput)
| SubmitPlanForm
| ChooseFile (files : option File)
| ClickUpload
| DeletePrompt (e : PromptEvent)
| ClickConfirmDelete
| DismissToast (id : string).

Definition onEvent (e : UiEvent) : M unit :=
  match e with
  | EditPlanForm target => handleNewPlanChange target
  | SubmitPlanForm => handleAddPlan
  | ChooseFile files => handleFileChange files
  | ClickUpload => handleMediaUpload
  | DeletePrompt p => onPrompt p
  | ClickConfirmDelete => confirmDeletion
  | DismissToast id => removeToast id
  end.

Fixpoint onEvents (es : list UiEvent) : M unit :=
  match es with
  | [] => ret tt
  | e :: rest => onEvent e ;; onEvents rest
  end.

(** ** The login form *)

Module Login.

(** The cells of the [Login] component, the address of the page, and the
    credentials handed to [signInWithPassword] so far. *)
Record t : Type := {
  email : string;
  password : string;
  error : option string;
  isLoading : bool;
  focusedField : option string;
  href : string;
  signIns : list (string * string)
}.

(** The monad of the login handler: state, with [throw]. *)
Definition L (A : Type) : Type := t -> Res A * t.

Definition ret {A : Type} (a : A) : L A := fun p => (Ok a, p).

Definition bind {A B : Type} (m : L A) (k : A -> L B) : L B :=
  fun p => match m p with
           | (Ok a, p') => k a p'
           | (Throw e, p') => (Throw e, p')
           end.

Definition throw {A : Type} (e : Error) : L A := fun p => (Throw e, p).

Definition try_catch {A : Type} (body : L A) (handler : Error -> L A) : L A :=
  fun p => match body p with
           | (Ok a, p') => (Ok a, p')
           | (Throw e, p') => handler e p'
           end.

Declare Scope login_scope.
Notation "x <- c1 ;; c2" := (bind c1 (fun x => c2))
  (at level 61, c1 at next level, right associativity) : login_scope.
Notation "c1 ;; c2" := (bind c1 (fun _ => c2))
  (at level 61, right associativity) : login_scope.
Local Open Scope login_scope.

(** The cells as the handler's closure captured them. *)
Definition cells : L t := fun p => (Ok p, p).

Definition setError (v : option string) : L unit :=
  fun p => (Ok tt,
            {| email := email p; password := password p; error := v;
               isLoading := isLoading p; focusedField := focusedField p;
               href := href p; signIns := signIns p |}).

Definition setIsLoading (v : bool) : L unit :=
  fun p => (Ok tt,
            {| email := email p; password := password p; error := error p;
               isLoading := v; focusedField := focusedField p;
               href := href p; signIns := signIns p |}).

(** [window.location.href = v]. *)
Definition setHref (v : string) : L unit :=
  fun p => (Ok tt,
            {| email := email p; password := password p; error := error p;
               isLoading := isLoading p; focusedField := focusedField p;
               href := v; signIns := signIns p |}).

(** [await supabase.auth.signInWithPassword({ email, password })]: the call
    is handed the credentials; [fate] says how it ends, with [{ error: null }],
    with [{ error }] or by a rejection. *)
Definition signInWithPassword (fate : Fault) (e pw : string)
  : L (option Error) :=
  fun p =>
    let p' := {| email := email p; password := password p; error := error p;
                 isLoading := isLoading p; focusedField := focusedField p;
                 href := href p;
                 signIns := (signIns p ++ [(e, pw)])%list |} in
    match fate with
    | NoFault => (Ok None, p')
    | ErrorResult err => (Ok (Some err), p')
    | Exception err => (Throw err, p')
    end.

Definition handleLogin (fate : Fault) : L unit :=
  c <- cells ;;
  setError None ;;
  setIsLoading true ;;
  try_catch
    (r <- signInWithPassword fate (email c) (password c) ;;
     match r with
     | Some err => throw err
     | None => setHref "/admin"
     end)
    (fun err =>
       setError (message err) ;;
       setIsLoading false).

End Login.

(** ** More predicates used to state the properties *)

Definition notComma (c : ascii) : bool := negb (Ascii.eqb c ",").

(** A feature entry as the plan list holds it: not empty, without white
    space at either end, without a comma. *)
Definition featureEntry (f : string) : Prop :=
  f <> "" /\ JS.trim f = f /\ all_chars notComma f = true.

(** The toast outlives the timer callbacks [acts]. *)
Definition survives (acts : list TimerAction) (toast : ToastMessage.t) : bool :=
  forallb (fun act => match act with
                      | ExpireToast id => otherThan id toast
                      | ResetUploadProgress => true
                      end) acts.

(** The callbacks of the timers of [s] that are due once [dt] milliseconds
    have passed. *)
Definition dueActions (dt : Z) (s : Sys) : list TimerAction :=
  map action (filter (fun t => due t <=? clock s + dt) (timers s)).

(** The path under which [handleMediaUpload] stores a file. *)
Definition storagePathOf (now : Z) (f : File) : string :=
  STORAGE_PUBLIC_PATH ++ "/" ++ safeFileName now (file_name_of f).

Definition hasPlanId (id : string) (p : HMSPlan.t) : bool :=
  String.eqb (HMSPlan.id p) id.

(** The two plans tie in the order of [fetchPlans]. *)
Definition tie (a b : HMSPlan.t) : bool := Qeq_bool (comparePlans a b) 0.

(** A store with a row that carries no creation time. *)
Module Undated.

Definition legacy : PlanRow.t :=
  {| PlanRow.id := "7"; PlanRow.name := "Legacy"; PlanRow.price := "$1";
     PlanRow.features := Some "";
     PlanRow.is_primary := Some false;
     PlanRow.created_at := None |}.

Definition store : Backend.t :=
  {| Backend.base_url := "https://example.supabase.co";
     Backend.session := None;
     Backend.plans_table := [Sample.pro; legacy];
     Backend.media_table := [];
     Backend.objects := [];
     Backend.next_id := 8 |}.

Definition system : Sys :=
  {| admin := Sample.dashboard; backend := store; clock := 1700000010000;
     replies := []; log := []; timers := []; fileInput := Some "" |}.

End Undated.

(** The dashboard of a visitor who is not signed in. *)
Definition visitor : Sys :=
  Sample.system (with_isAdmin Sample.dashboard false) [].

(** A dashboard that shows a toast added two seconds ago. *)
Definition noticed : Sys :=
  {| admin := with_toasts Sample.dashboard
                [{| ToastMessage.id := "1700000008000";
                    ToastMessage.message := "File selected: ward.png";
                    ToastMessage.type := ToastInfo |}];
     backend := Sample.store; clock := 1700000010000; replies := [];
     log := [];
     timers := [{| due := 1700000013000;
                   action := ExpireToast "1700000008000" |}];
     fileInput := Some "" |}.

(** An upload whose storage call goes through and whose insert is refused. *)
Definition orphaning : Sys :=
  Sample.system Sample.dashboard [fine 40; failing 30].

(** An upload, followed by the prompt for and the confirmation of the
    deletion of one media item. *)
Definition uploadThenDelete (item : MediaItem.t) : M unit :=
  thenEvent handleMediaUpload
    (thenEvent (handleDeleteMediaPrompt item) confirmDeletion).

(** Whether two change events come from the same input of the plan form. *)
Definition sameInput (a b : PlanInput) : bool :=
  match a, b with
  | NameInput _, NameInput _ => true
  | PriceInput _, PriceInput _ => true
  | IsPrimaryInput _, IsPrimaryInput _ => true
  | FeaturesInput _, FeaturesInput _ => true
  | _, _ => false
  end.

(** The three operations that write to the backend. *)
Inductive Mutation : Type :=
| MutAddPlan
| MutUploadMedia
| MutConfirmDeletion.

Definition mutate (m : Mutation) : M unit :=
  match m with
  | MutAddPlan => handleAddPlan
  | MutUploadMedia => handleMediaUpload
  | MutConfirmDeletion => confirmDeletion
  end.

(** The user fills the four inputs of the plan form, one change event for
    each. *)
Definition fillPlanForm (n p : string) (b : bool) (f : string) : M unit :=
  thenEvent (handleNewPlanChange (NameInput n))
    (thenEvent (handleNewPlanChange (PriceInput p))
       (thenEvent (handleNewPlanChange (IsPrimaryInput b))
          (handleNewPlanChange (FeaturesInput f)))).

(** * Properties *)

(** ** Strings *)

Example split_empty : JS.split "," "" = [""].
Proof. reflexivity. Qed.

Example trim_inner : JS.trim "  a b  " = "a b".
Proof. reflexivity. Qed.

Example numberToString_neg : JS.numberToString (-1700000000123) = "-1700000000123".
Proof. reflexivity. Qed.

Example normalize_scenario :
  parseFeatures "a, ,b,,c " = ["a"; "b"; "c"] /\
  normalizeFeatures "a, ,b,,c " = "a, b, c".
Proof. split; reflexivity. Qed.

Lemma lower_char_underscore : JS.lower_char "_"%char = "_"%char.
Proof. reflexivity. Qed.

Lemma sanitizeName_charwise (name : string) :
  sanitizeName name =
  JS.map_chars
    (fun c => if JS.in_class_alnum_dot c then JS.lower_char c else "_"%char)
    name.
Proof.
  unfold sanitizeName, JS.toLowerCase, JS.replace_outside_class.
  induction name as [|c s IH]; simpl; [reflexivity|].
  rewrite IH. destruct (JS.in_class_alnum_dot c); reflexivity.
Qed.

Example safe_file_name_scenario (t : Z) :
  safeFileName t "My Photo!.png" = JS.numberToString t ++ "_my_photo_.png".
Proof. reflexivity. Qed.

(** *** The characters of a sanitized name *)

Lemma all_chars_app (p : ascii -> bool) (s1 s2 : string) :
  all_chars p (s1 ++ s2) = (all_chars p s1 && all_chars p s2)%bool.
Proof.
  induction s1 as [|c s1 IH]; simpl; [reflexivity|].
  rewrite IH. now rewrite andb_assoc.
Qed.

Lemma all_chars_map (p : ascii -> bool) (f : ascii -> ascii) (s : string) :
  (forall c, p (f c) = true) -> all_chars p (JS.map_chars f s) = true.
Proof.
  intros H. induction s as [|c s IH]; simpl; [reflexivity|].
  now rewrite H, IH.
Qed.

Lemma sanitize_char (c : ascii) :
  stored_char
    (JS.lower_char (if JS.in_class_alnum_dot c then c else "_"%char)) = true.
Proof. destruct c as [[] [] [] [] [] [] [] []]; reflexivity. Qed.

Lemma sanitizeName_chars (name : string) :
  all_chars stored_char (sanitizeName name) = true.
Proof.
  unfold sanitizeName, JS.toLowerCase, JS.replace_outside_class.
  induction name as [|c s IH]; simpl; [reflexivity|].
  now rewrite sanitize_char, IH.
Qed.

Lemma string_of_uint_chars (d : Decimal.uint) :
  all_chars stored_char (JS.string_of_uint d) = true.
Proof. induction d; simpl; auto. Qed.

(** C7, as stated, fails: the sanitized name of ["My Photo!.png"], and the
    file name stored for it, hold underscores. *)
Lemma C7_underscore_counterexample :
  all_chars alnum_or_dot (sanitizeName "My Photo!.png") = false /\
  all_chars alnum_or_dot (safeFileName 1700000000000 "My Photo!.png") = false.
Proof. split; reflexivity. Qed.

(** C7, amended. Every character of a sanitized name is a lower-case
    letter, a digit, a dot or an underscore, and so is every character of the
    stored file name when the clock reading is not negative. *)
Theorem C7_sanitized_name_charset (name : string) (now : N) :
  all_chars stored_char (sanitizeName name) = true /\
  all_chars stored_char (safeFileName (Z.of_N now) name) = true.
Proof.
  split; [apply sanitizeName_chars|].
  unfold safeFileName. rewrite !all_chars_app, sanitizeName_chars.
  destruct now as [|p]; simpl; [reflexivity|].
  now rewrite string_of_uint_chars.
Qed.

(** ** The ordering of plans *)

(** *** The compare function is a total preorder *)

Lemma orZero_eq (n : num) :
  (orZero n == match n with NaN => 0 | Num q => q end)%Q.
Proof.
  destruct n as [|q]; simpl; [reflexivity|].
  destruct (Qeq_bool q 0) eqn:E; [|reflexivity].
  apply Qeq_bool_iff in E. now rewrite E.
Qed.

Lemma notAfter_iff (a b : HMSPlan.t) :
  notAfter a b <->
  (HMSPlan.isPrimary a = true /\ HMSPlan.isPrimary b = false) \/
  (HMSPlan.isPrimary a = HMSPlan.isPrimary b /\
   (secondsOrZero a <= secondsOrZero b)%Q).
Proof.
  unfold notAfter, comparePlans. rewrite Qle_bool_iff.
  destruct (HMSPlan.isPrimary a), (HMSPlan.isPrimary b); simpl; split.
  - intros H. right. split; [reflexivity | lra].
  - intros [[_ H] | [_ H]]; [discriminate | lra].
  - intros _. left. split; reflexivity.
  - intros _. lra.
  - intros H. exfalso. lra.
  - intros [[H _] | [H _]]; discriminate.
  - intros H. right. split; [reflexivity | lra].
  - intros [[H _] | [_ H]]; [discriminate | lra].
Qed.

Lemma notAfter_total (a b : HMSPlan.t) : notAfter a b \/ notAfter b a.
Proof.
  rewrite !notAfter_iff.
  destruct (HMSPlan.isPrimary a), (HMSPlan.isPrimary b);
    destruct (Qlt_le_dec (secondsOrZero b) (secondsOrZero a)) as [H|H];
    try apply Qlt_le_weak in H; auto.
Qed.

Lemma notAfter_trans (a b c : HMSPlan.t) :
  notAfter a b -> notAfter b c -> notAfter a c.
Proof.
  rewrite !notAfter_iff.
  intros [[Ha Hb] | [Hab H1]] [[Hb' Hc] | [Hbc H2]].
  - congruence.
  - left. split; congruence.
  - left. split; congruence.
  - right. split; [congruence | lra].
Qed.

(** When the compare function is negative, the second plan may not come
    first. *)
Lemma negative_not_notAfter (a b : HMSPlan.t) :
  (comparePlans a b < 0)%Q -> ~ notAfter b a.
Proof.
  unfold notAfter, comparePlans. rewrite Qle_bool_iff.
  destruct (HMSPlan.isPrimary a), (HMSPlan.isPrimary b); simpl; lra.
Qed.

(** *** The sort yields an ordered rearrangement *)

Lemma insert_perm (x : HMSPlan.t) (l : list HMSPlan.t) :
  Permutation (x :: l) (insert comparePlans x l).
Proof.
  induction l as [|y l IH]; simpl; [reflexivity|].
  destruct (Qle_bool (comparePlans x y) 0); [reflexivity|].
  rewrite perm_swap. now constructor.
Qed.

Lemma sortPlans_perm (l : list HMSPlan.t) : Permutation l (sortPlans l).
Proof.
  induction l as [|x l IH]; simpl; [constructor|].
  etransitivity; [|apply insert_perm]. now constructor.
Qed.

Lemma insert_sorted (x : HMSPlan.t) (l : list HMSPlan.t) :
  StronglySorted notAfter l ->
  StronglySorted notAfter (insert comparePlans x l).
Proof.
  induction 1 as [|y l Hs IH Hy]; simpl.
  - repeat constructor.
  - destruct (Qle_bool (comparePlans x y) 0) eqn:E.
    + constructor; [now constructor|].
      constructor; [exact E|].
      eapply Forall_impl; [|exact Hy].
      intros z Hz. eapply notAfter_trans; eassumption.
    + constructor; [exact IH|].
      assert (Hyx : notAfter y x).
      { destruct (notAfter_total x y) as [H|H]; [|exact H].
        unfold notAfter in H. congruence. }
      eapply Permutation_Forall; [apply insert_perm|].
      now constructor.
Qed.

Lemma sortPlans_sorted (l : list HMSPlan.t) :
  StronglySorted notAfter (sortPlans l).
Proof.
  induction l as [|x l IH]; simpl; [constructor|].
  now apply insert_sorted.
Qed.

Lemma sorted_nth_error {A : Type} (R : A -> A -> Prop) (l : list A) :
  StronglySorted R l ->
  forall (i j : nat) (x y : A),
    (i < j)%nat -> nth_error l i = Some x -> nth_error l j = Some y -> R x y.
Proof.
  induction 1 as [|a l Hs IH Ha]; intros i j x y Hij Hi Hj.
  - destruct i; discriminate.
  - destruct j as [|j]; [lia|]. simpl in Hj.
    destruct i as [|i]; simpl in Hi.
    + injection Hi as <-. rewrite Forall_forall in Ha.
      apply Ha. eapply nth_error_In; eassumption.
    + eapply IH; [|eassumption|eassumption]. lia.
Qed.

(** Two places of the sorted list whose plans compare negative are in
    that order. *)
Lemma sortPlans_places (l : list HMSPlan.t) (i j : nat) (x y : HMSPlan.t) :
  nth_error (sortPlans l) i = Some x ->
  nth_error (sortPlans l) j = Some y ->
  (comparePlans x y < 0)%Q ->
  (i < j)%nat.
Proof.
  intros Hi Hj Hlt.
  pose proof (negative_not_notAfter _ _ Hlt) as Hn.
  destruct (lt_eq_lt_dec i j) as [[H|H]|H]; [exact H| |].
  - subst j. rewrite Hi in Hj. injection Hj as <-.
    exfalso. apply Hn. destruct (notAfter_total x x); assumption.
  - exfalso. apply Hn.
    eapply (sorted_nth_error notAfter); [apply sortPlans_sorted| | |]; eassumption.
Qed.

(** ** Fetching: what a run of [fetchPlans] or [fetchMedia] leaves *)

Lemma fetchPlans_ok (s : Sys) :
  nextFault s = NoFault ->
  fetchPlans s =
  (Ok tt,
   with_admin (logged (arrive s) SelectAllPlans Succeeded)
     (with_error
        (with_plans (admin s)
           (sortPlans (map planOfRow (Backend.plans_table (backend s)))))
        None)).
Proof.
  intros H. unfold fetchPlans, try_catch, bind, await. rewrite H.
  reflexivity.
Qed.

Lemma fetchPlans_failed (s : Sys) :
  nextFault s <> NoFault ->
  exists o,
    fetchPlans s =
    (Ok tt,
     with_admin (logged (arrive s) SelectAllPlans o)
       (with_error (admin s) (Some "Failed to fetch plans."))) /\
    o <> Succeeded.
Proof.
  intros H. unfold fetchPlans, try_catch, bind, await.
  destruct (nextFault s) as [|e|e]; [congruence| |].
  - exists (ReturnedError e). split; [reflexivity | discriminate].
  - exists (Rejected e). split; [reflexivity | discriminate].
Qed.

Lemma fetchMedia_ok (s : Sys) :
  nextFault s = NoFault ->
  fetchMedia s =
  (Ok tt,
   with_admin (logged (arrive s) SelectAllMediaByUploadedAtDesc Succeeded)
     (with_error
        (with_mediaItems (admin s)
           (map mediaOfRow (select_media_desc (backend s))))
        None)).
Proof.
  intros H. unfold fetchMedia, try_catch, bind, await. rewrite H.
  reflexivity.
Qed.

Lemma fetchMedia_failed (s : Sys) :
  nextFault s <> NoFault ->
  exists o,
    fetchMedia s =
    (Ok tt,
     with_admin (logged (arrive s) SelectAllMediaByUploadedAtDesc o)
       (with_error (admin s) (Some "Failed to fetch media."))) /\
    o <> Succeeded.
Proof.
  intros H. unfold fetchMedia, try_catch, bind, await.
  destruct (nextFault s) as [|e|e]; [congruence| |].
  - exists (ReturnedError e). split; [reflexivity | discriminate].
  - exists (Rejected e). split; [reflexivity | discriminate].
Qed.

(** Of two rows that carry their creation instants, the earlier one gets
    the smaller [seconds]. *)
Lemma earlier_row_smaller_seconds (r1 r2 : PlanRow.t) (ms1 ms2 : Z) :
  PlanRow.created_at r1 = Some (Iso ms1) ->
  PlanRow.created_at r2 = Some (Iso ms2) ->
  ms1 < ms2 ->
  (secondsOrZero (planOfRow r1) < secondsOrZero (planOfRow r2))%Q.
Proof.
  intros H1 H2 Hlt. unfold secondsOrZero, planOfRow.
  cbn [HMSPlan.createdAt]. rewrite H1, H2. cbn [seconds secondsOfText].
  rewrite !orZero_eq. unfold Qdiv.
  apply Qmult_lt_compat_r; [reflexivity|].
  rewrite <- Zlt_Qlt. exact Hlt.
Qed.

(** C1. When [fetchPlans] receives the rows, the plan list it stores is a
    rearrangement of the fetched plans in which every primary plan stands
    before every plan that is not primary, and in which, of two plans of the
    same group, the one whose row carries the earlier creation instant stands
    before the one whose row carries the later one. *)
Theorem C1_fetched_plans_order
    (s : Sys) (i j : nat) (r1 r2 : PlanRow.t) :
  nextFault s = NoFault ->
  nth_error (plans (admin (exec fetchPlans s))) i = Some (planOfRow r1) ->
  nth_error (plans (admin (exec fetchPlans s))) j = Some (planOfRow r2) ->
  (HMSPlan.isPrimary (planOfRow r1) = true /\
   HMSPlan.isPrimary (planOfRow r2) = false) \/
  (HMSPlan.isPrimary (planOfRow r1) = HMSPlan.isPrimary (planOfRow r2) /\
   exists ms1 ms2,
     PlanRow.created_at r1 = Some (Iso ms1) /\
     PlanRow.created_at r2 = Some (Iso ms2) /\
     ms1 < ms2) ->
  Permutation (map planOfRow (Backend.plans_table (backend s)))
              (plans (admin (exec fetchPlans s))) /\
  (i < j)%nat.
Proof.
  intros Hok Hi Hj Hxy. unfold exec in Hi, Hj |- *.
  rewrite (fetchPlans_ok s Hok) in Hi, Hj |- *. simpl in Hi, Hj |- *.
  split; [apply sortPlans_perm|].
  eapply sortPlans_places; [exact Hi | exact Hj |].
  unfold comparePlans.
  destruct Hxy as [[Hx Hy] | [Hg (ms1 & ms2 & H1 & H2 & Hlt)]].
  - rewrite Hx, Hy. simpl. lra.
  - rewrite Hg, Bool.eqb_reflx. simpl.
    pose proof (earlier_row_smaller_seconds r1 r2 ms1 ms2 H1 H2 Hlt). lra.
Qed.

Lemma C1_fetched_plans_order_witness :
  (Permutation (map planOfRow (Backend.plans_table (backend Sample.quiet)))
               (plans (admin (exec fetchPlans Sample.quiet))) /\
   (0 < 1)%nat) /\
  (Permutation (map planOfRow (Backend.plans_table (backend Sample.quiet)))
               (plans (admin (exec fetchPlans Sample.quiet))) /\
   (1 < 2)%nat).
Proof.
  split.
  - apply (C1_fetched_plans_order Sample.quiet 0 1 Sample.gold Sample.starter);
      [reflexivity | reflexivity | reflexivity | left; split; reflexivity].
  - apply (C1_fetched_plans_order Sample.quiet 1 2 Sample.starter Sample.pro);
      [reflexivity | reflexivity | reflexivity |].
    right. split; [reflexivity|].
    exists 1700000001000, 1700000002000.
    repeat split.
Defined.

Example fetched_sample_order :
  map HMSPlan.name (plans (admin (exec fetchPlans Sample.quiet)))
  = ["Gold"; "Starter"; "Pro"].
Proof. reflexivity. Qed.

(** ** Toasts *)

Lemma addToast_run (s : Sys) (m : string) (t : ToastType) :
  addToast m t s =
  (Ok tt,
   with_timers
     (with_admin s
        (with_toasts (admin s)
           (toasts (admin s) ++
            [{| ToastMessage.id := JS.numberToString (clock s);
                ToastMessage.message := m;
                ToastMessage.type := t |}])%list))
     (timers s ++
      [{| due := clock s + 5000;
          action := ExpireToast (JS.numberToString (clock s)) |}])%list).
Proof. reflexivity. Qed.

Lemma filter_otherThan_In (id : string) (l : list ToastMessage.t)
    (t : ToastMessage.t) :
  In t (filter (otherThan id) l) <-> In t l /\ ToastMessage.id t <> id.
Proof.
  rewrite filter_In. unfold otherThan. rewrite negb_true_iff.
  split; intros [H1 H2]; split; try exact H1.
  - intros E. apply String.eqb_eq in E. congruence.
  - destruct (String.eqb_spec (ToastMessage.id t) id); congruence.
Qed.

Lemma otherThan_same (id m : string) (t : ToastType) :
  otherThan id {| ToastMessage.id := id; ToastMessage.message := m;
                  ToastMessage.type := t |} = false.
Proof. unfold otherThan. simpl. now rewrite String.eqb_refl. Qed.

(** C10. A toast gets the decimal text of the clock reading as its
    identifier, so that two toasts added at equal clock readings get equal
    identifiers; the removal by identifier, by [removeToast] as by the timer
    that [addToast] sets, drops every toast with that identifier and keeps
    the others. *)
Theorem C10_toast_identifiers
    (s1 s2 : Sys) (m1 m2 : string) (t1 t2 : ToastType) :
  clock s1 = clock s2 ->
  (toasts (admin (exec (addToast m1 t1) s1)) =
   (toasts (admin s1) ++
    [{| ToastMessage.id := JS.numberToString (clock s1);
        ToastMessage.message := m1; ToastMessage.type := t1 |}])%list /\
   toasts (admin (exec (addToast m2 t2) s2)) =
   (toasts (admin s2) ++
    [{| ToastMessage.id := JS.numberToString (clock s1);
        ToastMessage.message := m2; ToastMessage.type := t2 |}])%list) /\
  timers (exec (addToast m1 t1) s1) =
  (timers s1 ++
   [{| due := clock s1 + 5000;
       action := ExpireToast (JS.numberToString (clock s1)) |}])%list /\
  (forall (s : Sys) (id : string) (t : ToastMessage.t),
      (In t (toasts (admin (exec (removeToast id) s))) <->
       In t (toasts (admin s)) /\ ToastMessage.id t <> id) /\
      (In t (toasts (admin (exec (fire (ExpireToast id)) s))) <->
       In t (toasts (admin s)) /\ ToastMessage.id t <> id)) /\
  toasts (admin (exec (removeToast (JS.numberToString (clock s1)))
                   (exec (addToast m2 t2) (exec (addToast m1 t1) s1)))) =
  filter (otherThan (JS.numberToString (clock s1))) (toasts (admin s1)).
Proof.
  intros Hc. unfold exec. rewrite !addToast_run. simpl.
  split; [split; [reflexivity | now rewrite Hc]|].
  split; [reflexivity|]. split.
  - intros s id t. split; apply filter_otherThan_In.
  - rewrite <- app_assoc, filter_app. simpl.
    rewrite !otherThan_same. apply app_nil_r.
Qed.

Lemma C10_toast_identifiers_witness :
  toasts (admin (exec (removeToast (JS.numberToString (clock Sample.quiet)))
                   (exec (addToast "B" ToastError)
                      (exec (addToast "A" ToastInfo) Sample.quiet)))) = [].
Proof.
  apply (C10_toast_identifiers Sample.quiet Sample.quiet "A" "B"
           ToastInfo ToastError eq_refl).
Defined.

Example toasts_same_millisecond_expire_together :
  map ToastMessage.message
    (toasts (admin (exec (elapse 5000)
                      (exec (addToast "B" ToastError)
                         (exec (addToast "A" ToastInfo) Sample.quiet))))) = [].
Proof. reflexivity. Qed.

(** ** The session gate *)

(** C9. After the session check at mount, [isAdmin] is exactly the presence
    of a user in the session, the only call issued is the session check, and
    the render shows the dashboard if and only if the check yielded a user,
    the locked-out view otherwise. *)
Theorem C9_admin_is_session_presence (s : Sys) (mounted : bool) :
  mounted = true ->
  isAdmin (admin s) = false ->
  (isAdmin (admin (exec (authEffect mounted) s)) =
   match sessionUser s with Some _ => true | None => false end) /\
  (render (admin (exec (authEffect mounted) s)) = Dashboard <->
   exists u, sessionUser s = Some u) /\
  (render (admin (exec (authEffect mounted) s)) = AccessDenied <->
   sessionUser s = None) /\
  (exists o, log (exec (authEffect mounted) s) =
             (log s ++ [{| call := AuthGetSession; outcome := o |}])%list) /\
  result (authEffect mounted) s = Ok tt.
Proof.
  intros -> Hinit.
  unfold exec, result, authEffect, try_catch, bind, await, sessionUser, render.
  destruct (nextFault s) as [|e|e]; simpl.
  - destruct (Backend.session (backend s)) as [[[u|]]|]; simpl.
    + repeat split; eauto; discriminate.
    + repeat split; eauto; try discriminate. intros [u H]. discriminate.
    + repeat split; eauto; try discriminate. intros [u H]. discriminate.
  - repeat split; eauto; try discriminate. intros [u H]. discriminate.
  - rewrite Hinit. simpl.
    repeat split; eauto; try discriminate. intros [u H]. discriminate.
Qed.

Lemma C9_admin_is_session_presence_witness :
  render (admin (exec (authEffect true)
                   (Sample.system initialAdmin []))) = Dashboard <->
  exists u, sessionUser (Sample.system initialAdmin []) = Some u.
Proof.
  apply (C9_admin_is_session_presence (Sample.system initialAdmin []) true
           eq_refl eq_refl).
Defined.

Example session_lost_shows_locked_out_view :
  render (admin (exec (authEffect true)
                   (Sample.system initialAdmin
                      [{| elapsed := 20; fault := Exception Sample.denied |}])))
  = AccessDenied.
Proof. reflexivity. Qed.

(** ** The confirmation modal *)

Lemma handleDeletePlanPrompt_run (p : HMSPlan.t) (s : Sys) :
  handleDeletePlanPrompt p s =
  (Ok tt,
   if isAdmin (admin s)
   then with_admin s
          (with_showDeleteModal
             (with_itemToDelete (admin s)
                (Some {| ItemToDelete.id := HMSPlan.id p;
                         ItemToDelete.type := plan;
                         ItemToDelete.name := HMSPlan.name p |}))
             true)
   else s).
Proof.
  unfold handleDeletePlanPrompt, bind, cells.
  destruct (isAdmin (admin s)); reflexivity.
Qed.

Lemma handleDeleteMediaPrompt_run (m : MediaItem.t) (s : Sys) :
  handleDeleteMediaPrompt m s =
  (Ok tt,
   if isAdmin (admin s)
   then with_admin s
          (with_showDeleteModal
             (with_itemToDelete (admin s)
                (Some {| ItemToDelete.id := MediaItem.id m;
                         ItemToDelete.type := media;
                         ItemToDelete.name := MediaItem.fileName m |}))
             true)
   else s).
Proof.
  unfold handleDeleteMediaPrompt, bind, cells.
  destruct (isAdmin (admin s)); reflexivity.
Qed.

Lemma onPrompt_untouched (e : PromptEvent) (s : Sys) :
  result (onPrompt e) s = Ok tt /\ untouched s (exec (onPrompt e) s).
Proof.
  unfold result, exec, untouched. destruct e as [p|m|]; simpl.
  - rewrite handleDeletePlanPrompt_run. simpl.
    destruct (isAdmin (admin s)); simpl; auto.
  - rewrite handleDeleteMediaPrompt_run. simpl.
    destruct (isAdmin (admin s)); simpl; auto.
  - auto 6.
Qed.

Lemma onPrompts_untouched (es : list PromptEvent) (s : Sys) :
  result (onPrompts es) s = Ok tt /\ untouched s (exec (onPrompts es) s).
Proof.
  revert s. induction es as [|e es IH]; intros s.
  - unfold untouched. simpl. auto 6.
  - destruct (onPrompt_untouched e s) as [Hr (H1 & H2 & H3 & H4)].
    unfold result, exec in *. simpl. unfold bind.
    destruct (onPrompt e s) as [[[]|err] s1]; simpl in *; [|discriminate].
    destruct (IH s1) as [Hr' (G1 & G2 & G3 & G4)].
    unfold result, exec in *.
    split; [exact Hr'|]. unfold untouched. repeat split; congruence.
Qed.

Lemma skipn_log_app {A : Type} (l l' : list A) :
  skipn (List.length l) (l ++ l') = l'.
Proof. induction l as [|a l IH]; simpl; [reflexivity | exact IH]. Qed.

Lemma skipn_log_same {A : Type} (l : list A) : skipn (List.length l) l = [].
Proof. apply skipn_all. Qed.

(** C8. No call, and so no delete call, is issued before the confirmation:
    whatever sequence of delete prompts and cancellations the user goes
    through, no call is issued and the two collections in memory and the
    remote store stay as they were.  A prompt handler only records the
    pending item and opens the modal (and does nothing when the user is no
    administrator); Cancel only closes the modal. *)
Theorem C8_no_delete_before_confirmation
    (es : list PromptEvent) (s : Sys) (p : HMSPlan.t) (m : MediaItem.t) :
  (result (onPrompts es) s = Ok tt /\
   issued (onPrompts es) s = [] /\
   untouched s (exec (onPrompts es) s)) /\
  exec (handleDeletePlanPrompt p) s =
  (if isAdmin (admin s)
   then with_admin s
          (with_showDeleteModal
             (with_itemToDelete (admin s)
                (Some {| ItemToDelete.id := HMSPlan.id p;
                         ItemToDelete.type := plan;
                         ItemToDelete.name := HMSPlan.name p |}))
             true)
   else s) /\
  exec (handleDeleteMediaPrompt m) s =
  (if isAdmin (admin s)
   then with_admin s
          (with_showDeleteModal
             (with_itemToDelete (admin s)
                (Some {| ItemToDelete.id := MediaItem.id m;
                         ItemToDelete.type := media;
                         ItemToDelete.name := MediaItem.fileName m |}))
             true)
   else s) /\
  exec cancelDeletion s = with_admin s (with_showDeleteModal (admin s) false) /\
  DeleteConfirmationModal (admin (exec cancelDeletion s)) = None.
Proof.
  destruct (onPrompts_untouched es s) as [Hr Hu].
  split; [split; [exact Hr | split; [|exact Hu]]|].
  - destruct Hu as [Hlog _]. unfold issued. rewrite Hlog.
    apply skipn_log_same.
  - unfold exec. rewrite handleDeletePlanPrompt_run, handleDeleteMediaPrompt_run.
    repeat split.
Qed.

Example prompt_then_cancel :
  let s := exec (onPrompts [ClickDeletePlan (planOfRow Sample.gold); ClickCancel])
             Sample.quiet in
  log s = [] /\ backend s = Sample.store /\
  DeleteConfirmationModal (admin s) = None.
Proof. repeat split. Qed.

(** ** Running a handler on a symbolic state

    [run_handler] unfolds the handlers, the monad and the cells, and leaves
    the string, list and backend functions folded; [crunch] alternates it
    with a case analysis on whatever the run is waiting for: the fault of the
    next reply, a cell, an answer of the backend. *)

Ltac run_handler :=
  cbv beta iota zeta delta
    [handleMediaUpload handleAddPlan confirmDeletion deletePlan deleteMedia
     fetchPlans fetchMedia addToast removeToast progressLoop
     progressSteps try_finally try_catch bind ret
     throw orThrow cells await getPublicUrl
     setCell setPlans setMediaItems setAuthReady setIsAdmin
     setError setNewPlan setUploadFile setIsUploading setUploadProgress
     setIsAddingPlan setShowDeleteModal setItemToDelete setToasts setTimeout
     sleep Date_now logged arrive nextFault
     nextReply with_admin with_backend with_timers with_clock
     clearFileInput thenEvent whenMounted fileInput with_fileInput
     exec result issued run fst
     snd negb admin backend clock
     replies log timers plans mediaItems
     loading authReady isAdmin error newPlan
     uploadFile isUploading uploadProgress isAddingPlan showDeleteModal
     itemToDelete toasts with_plans with_mediaItems with_loading
     with_authReady with_isAdmin with_error with_newPlan with_uploadFile
     with_isUploading with_uploadProgress with_isAddingPlan with_showDeleteModal with_itemToDelete
     with_toasts].

Ltac split_state s :=
  let a := fresh "a" in
  destruct s as [a ? ? ? ? ? ?]; destruct a.

Ltac app_head t :=
  lazymatch t with
  | ?f _ => app_head f
  | _ => t
  end.

Ltac stuck_in t :=
  lazymatch t with
  | match ?x with _ => _ end => stuck_in x
  | _ => let h := app_head t in
         lazymatch h with
         | match ?x with _ => _ end => stuck_in x
         | _ => t
         end
  end.

Ltac crunch :=
  run_handler;
  repeat (match goal with
          | |- context [match ?x with _ => _ end] =>
              let c := stuck_in x in destruct c eqn:?
          end; run_handler).

Ltac split_In :=
  repeat match goal with H : _ \/ _ |- _ => destruct H as [H|H] end.

Ltac issued_list :=
  repeat rewrite <- app_assoc;
  first [rewrite skipn_log_app | rewrite skipn_log_same].

Ltac report :=
  unfold failureReported; cbn;
  split; [reflexivity|split; [reflexivity|]];
  first [ left; reflexivity | right; reflexivity
        | rewrite <- ?app_assoc; cbn;
          lazymatch goal with
          | |- exists added t, (?l ++ [?x; ?y])%list = _ /\ _ =>
              exists [x], y;
              split; [reflexivity
                     |split; [reflexivity|repeat constructor; discriminate]]
          | |- exists added t, (?l ++ [?y])%list = _ /\ _ =>
              exists [], y;
              split; [reflexivity|split; [reflexivity|constructor]]
          end ].

Ltac caught_leaf :=
  unfold caught; cbn [fst snd log];
  split; [reflexivity|];
  issued_list;
  let ev := fresh "ev" in
  let Hin := fresh "Hin" in
  let Ho := fresh "Ho" in
  intros ev Hin Ho; cbn in Hin; split_In; try contradiction; subst ev;
  try (exfalso; apply Ho; reflexivity);
  report.

(** ** Failures of backend calls *)

Lemma fetchPlans_caught (s : Sys) : caught s (fetchPlans s).
Proof. split_state s. crunch. all: caught_leaf. Qed.

Lemma fetchMedia_caught (s : Sys) : caught s (fetchMedia s).
Proof. split_state s. crunch. all: caught_leaf. Qed.

Lemma handleAddPlan_caught (s : Sys) : caught s (handleAddPlan s).
Proof. split_state s. crunch. all: caught_leaf. Qed.

Ltac caught_upload_leaf :=
  cbn [fst snd log];
  split; [let Hp := fresh "Hp" in
          intros Hp; first [reflexivity | exfalso; apply Hp; reflexivity]|];
  issued_list;
  let ev := fresh "ev" in
  let Hin := fresh "Hin" in
  let Ho := fresh "Ho" in
  intros ev Hin Ho; cbn in Hin; split_In; try contradiction; subst ev;
  try (exfalso; apply Ho; reflexivity);
  report.

Lemma handleMediaUpload_caught (s : Sys) :
  (fileInput s <> None -> fst (handleMediaUpload s) = Ok tt) /\
  forall ev,
    In ev (skipn (List.length (log s)) (log (snd (handleMediaUpload s)))) ->
    outcome ev <> Succeeded ->
    failureReported s (snd (handleMediaUpload s)) ev.
Proof. split_state s. crunch. all: caught_upload_leaf. Qed.

Lemma confirmDeletion_caught (s : Sys) : caught s (confirmDeletion s).
Proof. split_state s. crunch. all: caught_leaf. Qed.

Lemma fetch_never_toasts (s : Sys) :
  toasts (admin (exec fetchPlans s)) = toasts (admin s) /\
  toasts (admin (exec fetchMedia s)) = toasts (admin s).
Proof. split_state s. split; crunch; reflexivity. Qed.

(** C3, as stated, fails twice.  When the select of [fetchPlans] is
    refused, the failure is put in the [error] cell and no toast is made.
    And when an upload is refused while the page no longer holds the file
    input, the error toast is made but the handler ends by throwing, from the
    last statement of its [finally] block. *)
Lemma C3_fetch_failure_makes_no_toast :
  (issued fetchPlans (Sample.system Sample.dashboard [failing 30]) =
   [{| call := SelectAllPlans; outcome := ReturnedError Sample.denied |}] /\
   toasts (admin (exec fetchPlans
                    (Sample.system Sample.dashboard [failing 30]))) = [] /\
   error (admin (exec fetchPlans
                   (Sample.system Sample.dashboard [failing 30]))) =
   Some "Failed to fetch plans.") /\
  (map outcome (issued handleMediaUpload detached) =
   [ReturnedError Sample.denied] /\
   result handleMediaUpload detached = Throw typeError).
Proof. repeat split. Qed.

(** C3, amended. Every failure of a backend call, in each of the five
    operations, is caught at the operation and does not propagate further:
    the operation does not throw (for upload media, as long as the page still
    holds the file input that its [finally] block clears), and nothing that
    is rendered reflects a partial success, the two collections in memory
    being as before and no success toast standing beside the failure of a
    call of the operation itself.  A failure of a call of add plan, upload
    media or confirm deletion other than the re-fetch becomes an error toast;
    a failure of the select of fetch plans or fetch media, run alone or as
    the re-fetch of another operation, is put in the [error] cell instead,
    and fetch plans and fetch media make no toast. *)
Theorem C3_failures_caught_at_operation (op : Operation) (s : Sys) :
  (op <> UploadMedia \/ fileInput s <> None -> result (run op) s = Ok tt) /\
  (forall ev,
      In ev (issued (run op) s) ->
      outcome ev <> Succeeded ->
      failureReported s (exec (run op) s) ev) /\
  toasts (admin (exec fetchPlans s)) = toasts (admin s) /\
  toasts (admin (exec fetchMedia s)) = toasts (admin s).
Proof.
  split; [|split; [|apply fetch_never_toasts]].
  - intros Hop. destruct op; simpl.
    + apply (fetchPlans_caught s).
    + apply (fetchMedia_caught s).
    + apply (handleAddPlan_caught s).
    + apply (proj1 (handleMediaUpload_caught s)).
      destruct Hop as [Hop | Hop]; [congruence | exact Hop].
    + apply (confirmDeletion_caught s).
  - destruct op; simpl.
    + apply (fetchPlans_caught s).
    + apply (fetchMedia_caught s).
    + apply (handleAddPlan_caught s).
    + apply (proj2 (handleMediaUpload_caught s)).
    + apply (confirmDeletion_caught s).
Qed.

Lemma C3_failures_caught_at_operation_witness :
  result (run UploadMedia) (Sample.system Sample.dashboard [failing 30]) =
  Ok tt /\
  failureReported (Sample.system Sample.dashboard [failing 30])
    (exec (run UploadMedia) (Sample.system Sample.dashboard [failing 30]))
    {| call := StorageUpload "public/media/1700000010000_my_photo_.png"
                 {| file_name_of := "My Photo!.png" |};
       outcome := ReturnedError Sample.denied |}.
Proof.
  destruct (C3_failures_caught_at_operation UploadMedia
              (Sample.system Sample.dashboard [failing 30]))
    as (Hr & Hf & _).
  split.
  - apply Hr. right. discriminate.
  - apply Hf; [vm_compute; left; reflexivity | discriminate].
Defined.

(** ** Deleting a media item *)

(** C2. When the storage remove call of a media deletion fails, no delete
    of the catalog row is issued, the backend (catalog rows and stored
    objects) and the two collections in memory are unchanged, and exactly one
    toast is added, an error toast naming the item; the operation does not
    throw. *)
Theorem C2_failed_remove_keeps_catalog_row
    (s : Sys) (paths : list string) (o : Outcome) :
  In {| call := StorageRemove paths; outcome := o |}
     (issued confirmDeletion s) ->
  o <> Succeeded ->
  (forall id o', ~ In {| call := DeleteMediaById id; outcome := o' |}
                      (issued confirmDeletion s)) /\
  backend (exec confirmDeletion s) = backend s /\
  mediaItems (admin (exec confirmDeletion s)) = mediaItems (admin s) /\
  plans (admin (exec confirmDeletion s)) = plans (admin s) /\
  (exists item t,
      itemToDelete (admin s) = Some item /\
      toasts (admin (exec confirmDeletion s)) =
      (toasts (admin s) ++ [t])%list /\
      ToastMessage.type t = ToastError /\
      ToastMessage.message t =
      "Failed to delete media " ++ dq ++ ItemToDelete.name item ++ dq
      ++ ". Check RLS.") /\
  result confirmDeletion s = Ok tt.
Proof.
  split_state s. crunch; issued_list.
  all: intros Hin Ho; cbn in Hin; split_In; try contradiction;
       try discriminate.
  all: try (exfalso; inversion Hin; subst; congruence).
  all: clear Hin.
  all: split; [intros id' o' Hin; cbn in Hin; split_In;
               try contradiction; discriminate|].
  all: do 3 (split; [reflexivity|]).
  all: split; [|reflexivity].
  all: do 2 eexists; repeat split; reflexivity.
Qed.

Lemma C2_failed_remove_keeps_catalog_row_witness :
  backend (exec confirmDeletion (confirming [fine 20; failing 30])) =
  backend (confirming [fine 20; failing 30]).
Proof.
  apply (C2_failed_remove_keeps_catalog_row
           (confirming [fine 20; failing 30])
           ["public/media/1700000000500_ward.png"]
           (ReturnedError Sample.denied));
    [right; left; reflexivity | discriminate].
Defined.

Example failed_remove_calls :
  map call (issued confirmDeletion (confirming [fine 20; failing 30])) =
  [SelectMediaFileNameById "4";
   StorageRemove ["public/media/1700000000500_ward.png"]].
Proof. reflexivity. Qed.

Example media_deleted_when_all_calls_succeed :
  let s := exec confirmDeletion (confirming []) in
  Backend.media_table (backend s) = [] /\
  Backend.objects (backend s) = [] /\
  mediaItems (admin s) = [] /\
  map ToastMessage.type (toasts (admin s)) = [ToastSuccess].
Proof. repeat split. Qed.

(** ** Adding a plan *)

Lemma sortPlans_snoc (l : list HMSPlan.t) (p : HMSPlan.t) :
  Permutation (sortPlans (l ++ [p])) (p :: sortPlans l).
Proof.
  rewrite <- (sortPlans_perm (l ++ [p])), <- (sortPlans_perm l).
  symmetry. apply Permutation_cons_append.
Qed.


(** C5. An administrator submits the new plan Basic, "$10",
    "Wifi, Support", not primary, and no call fails: the plan list after
    the re-fetch is the list fetched before with exactly one more entry, and
    that entry has the feature list [Wifi; Support] and is not primary; the
    feature text stored in the new row is "Wifi, Support". *)
Theorem C5_added_plan_round_trip (s : Sys) :
  isAdmin (admin s) = true ->
  newPlan (admin s) =
  {| NewPlanData.name := "Basic"; NewPlanData.price := "$10";
     NewPlanData.features := "Wifi, Support";
     NewPlanData.isPrimary := false |} ->
  plans (admin s) =
  sortPlans (map planOfRow (Backend.plans_table (backend s))) ->
  Forall (fun ev => outcome ev = Succeeded) (issued handleAddPlan s) ->
  exists p,
    Permutation (plans (admin (exec handleAddPlan s))) (p :: plans (admin s)) /\
    List.length (plans (admin (exec handleAddPlan s))) =
    S (List.length (plans (admin s))) /\
    HMSPlan.name p = "Basic" /\ HMSPlan.price p = "$10" /\
    HMSPlan.features p = ["Wifi"; "Support"] /\
    HMSPlan.isPrimary p = false /\
    map PlanRow.features (Backend.plans_table (backend (exec handleAddPlan s)))
    = (map PlanRow.features (Backend.plans_table (backend s))
       ++ [Some "Wifi, Support"])%list.
Proof.
  split_state s. cbn [admin isAdmin newPlan plans backend].
  intros -> -> -> .
  crunch; issued_list; intros Hall; cbn in Hall.
  all: try (exfalso;
            repeat match goal with
                   | H : Forall _ (_ :: _) |- _ => inversion H; subst; clear H
                   end;
            cbn in *; discriminate).
  all: clear Hall.
  all: cbn [Backend.plans_table Backend.insert_plan
            Backend.with_plans Backend.with_next_id].
  all: rewrite !map_app; cbn [map].
  all: eexists; split; [apply sortPlans_snoc|].
  all: split; [rewrite (Permutation_length (sortPlans_snoc _ _)); reflexivity|].
  all: repeat split; reflexivity.
Qed.

Lemma C5_added_plan_round_trip_witness :
  exists p,
    Permutation (plans (admin (exec handleAddPlan Sample.quiet)))
                (p :: plans (admin Sample.quiet)) /\
    List.length (plans (admin (exec handleAddPlan Sample.quiet))) =
    S (List.length (plans (admin Sample.quiet))) /\
    HMSPlan.name p = "Basic" /\ HMSPlan.price p = "$10" /\
    HMSPlan.features p = ["Wifi"; "Support"] /\
    HMSPlan.isPrimary p = false /\
    map PlanRow.features
      (Backend.plans_table (backend (exec handleAddPlan Sample.quiet)))
    = (map PlanRow.features (Backend.plans_table (backend Sample.quiet))
       ++ [Some "Wifi, Support"])%list.
Proof.
  apply (C5_added_plan_round_trip Sample.quiet);
    [reflexivity | reflexivity | reflexivity | repeat constructor].
Defined.

Example added_plan_sample :
  map HMSPlan.name (plans (admin (exec handleAddPlan Sample.quiet))) =
  ["Gold"; "Starter"; "Pro"; "Basic"].
Proof. reflexivity. Qed.

(** A re-fetch that fails after the insert went through leaves the failure
    in the [error] cell, next to the success toast of the insert. *)
Example refetch_failure_after_insert :
  let s := exec handleAddPlan (Sample.system Sample.dashboard [fine 20; failing 30]) in
  error (admin s) = Some "Failed to fetch plans." /\
  map ToastMessage.type (toasts (admin s)) = [ToastSuccess] /\
  List.length (Backend.plans_table (backend s)) = 4%nat /\
  List.length (plans (admin s)) = 3%nat.
Proof. repeat split. Qed.

(** * Further properties of the component *)

(** ** Feature lists *)

Lemma split_not_nil (sep : ascii) (s : string) : JS.split sep s <> [].
Proof.
  destruct s as [|c s]; simpl; [discriminate|].
  destruct (Ascii.eqb c sep); [discriminate|].
  destruct (JS.split sep s); discriminate.
Qed.

Lemma split_segments_no_sep (s : string) :
  Forall (fun w => all_chars notComma w = true) (JS.split "," s).
Proof.
  induction s as [|c s IH]; simpl; [repeat constructor|].
  destruct (Ascii.eqb c ",") eqn:E.
  - constructor; [reflexivity | exact IH].
  - destruct (JS.split "," s) as [|w ws]; simpl.
    + repeat constructor. simpl. unfold notComma. now rewrite E.
    + inversion IH as [|? ? Hw Hws]; subst. constructor; [|exact Hws].
      simpl. unfold notComma at 1. now rewrite E.
Qed.

Lemma all_chars_trimStart (p : ascii -> bool) (s : string) :
  all_chars p s = true -> all_chars p (JS.trimStart s) = true.
Proof.
  induction s as [|c s IH]; simpl; [auto|].
  intros H. apply andb_true_iff in H as [Hc Hs].
  destruct (JS.isWhiteSpace c); [auto|]. simpl. now rewrite Hc, Hs.
Qed.

Lemma all_chars_trimEnd (p : ascii -> bool) (s : string) :
  all_chars p s = true -> all_chars p (JS.trimEnd s) = true.
Proof.
  induction s as [|c s IH]; simpl; [auto|].
  intros H. apply andb_true_iff in H as [Hc Hs]. specialize (IH Hs).
  destruct (JS.trimEnd s) as [|d r].
  - destruct (JS.isWhiteSpace c); simpl; [reflexivity | now rewrite Hc].
  - simpl in *. now rewrite Hc, IH.
Qed.

Lemma trimEnd_cons (c : ascii) (r : string) :
  JS.isWhiteSpace c = false ->
  JS.trimEnd (String c r) = String c (JS.trimEnd r).
Proof.
  intros H. simpl. destruct (JS.trimEnd r); [now rewrite H | reflexivity].
Qed.

Lemma trimEnd_idem (s : string) : JS.trimEnd (JS.trimEnd s) = JS.trimEnd s.
Proof.
  induction s as [|c s IH]; simpl; [reflexivity|].
  destruct (JS.trimEnd s) as [|d r] eqn:E.
  - destruct (JS.isWhiteSpace c) eqn:W; [reflexivity|].
    simpl. now rewrite W.
  - change (JS.trimEnd (String c (String d r)) = String c (String d r)).
    simpl. simpl in IH. now rewrite IH.
Qed.

Lemma trimStart_shape (s : string) :
  JS.trimStart s = "" \/
  exists c r, JS.trimStart s = String c r /\ JS.isWhiteSpace c = false.
Proof.
  induction s as [|c s IH]; simpl; [now left|].
  destruct (JS.isWhiteSpace c) eqn:W; [exact IH|].
  right. now exists c, s.
Qed.

Lemma trim_idem (s : string) : JS.trim (JS.trim s) = JS.trim s.
Proof.
  unfold JS.trim. destruct (trimStart_shape s) as [E | (c & r & E & W)].
  - rewrite E. reflexivity.
  - rewrite E, (trimEnd_cons c r W). simpl JS.trimStart. rewrite W.
    rewrite (trimEnd_cons c _ W). now rewrite trimEnd_idem.
Qed.

Lemma trim_space (w : string) : JS.trim (String " " w) = JS.trim w.
Proof. reflexivity. Qed.

Lemma parseFeatures_entries (s : string) :
  Forall featureEntry (parseFeatures s).
Proof.
  unfold parseFeatures. rewrite Forall_forall. intros f Hf.
  apply filter_In in Hf as [Hin Ht]. apply in_map_iff in Hin as (w & <- & Hw).
  pose proof (split_segments_no_sep s) as Hs. rewrite Forall_forall in Hs.
  repeat split.
  - intros E. rewrite E in Ht. discriminate.
  - apply trim_idem.
  - unfold JS.trim. apply all_chars_trimEnd, all_chars_trimStart. auto.
Qed.

Lemma split_segment_then_comma (x t : string) :
  all_chars notComma x = true ->
  JS.split "," (x ++ String "," t) = x :: JS.split "," t.
Proof.
  induction x as [|c x IH]; simpl; [reflexivity|].
  intros H. apply andb_true_iff in H as [Hc Hx].
  unfold notComma in Hc. apply negb_true_iff in Hc. rewrite Hc.
  now rewrite (IH Hx).
Qed.

Lemma split_no_comma (x : string) :
  all_chars notComma x = true -> JS.split "," x = [x].
Proof.
  induction x as [|c x IH]; simpl; [reflexivity|].
  intros H. apply andb_true_iff in H as [Hc Hx].
  unfold notComma in Hc. apply negb_true_iff in Hc. rewrite Hc.
  now rewrite (IH Hx).
Qed.

Lemma parseFeatures_after_space (t : string) :
  parseFeatures (String " " t) = parseFeatures t.
Proof.
  unfold parseFeatures. simpl.
  destruct (JS.split "," t) as [|w ws] eqn:E.
  - now apply split_not_nil in E.
  - simpl. now rewrite trim_space.
Qed.

Lemma truthy_entry (f : string) : f <> "" -> JS.truthy f = true.
Proof. destruct f; [congruence | reflexivity]. Qed.

Lemma parseFeatures_segment (x t : string) :
  featureEntry x ->
  parseFeatures (x ++ String "," t) = x :: parseFeatures t.
Proof.
  intros (Hne & Htrim & Hnc). unfold parseFeatures.
  rewrite (split_segment_then_comma x t Hnc). simpl.
  now rewrite Htrim, (truthy_entry x Hne).
Qed.

Lemma parseFeatures_join (l : list string) :
  Forall featureEntry l -> parseFeatures (JS.join ", " l) = l.
Proof.
  induction 1 as [|x l Hx Hl IH]; [reflexivity|].
  destruct l as [|y l].
  - destruct Hx as (Hne & Htrim & Hnc).
    simpl. unfold parseFeatures. rewrite (split_no_comma x Hnc). simpl.
    now rewrite Htrim, (truthy_entry x Hne).
  - change (JS.join ", " (x :: y :: l))
      with (x ++ String "," (String " " (JS.join ", " (y :: l)))).
    rewrite (parseFeatures_segment x _ Hx), parseFeatures_after_space.
    now rewrite IH.
Qed.

(** X1. Every entry of a parsed feature list is a non-empty text without
    white space at either end and without a comma, whatever text is
    parsed. *)
Theorem X1_parsed_features_are_clean (s : string) :
  Forall featureEntry (parseFeatures s) /\
  parseFeatures "" = [].
Proof. split; [apply parseFeatures_entries | reflexivity]. Qed.

(** X2. Storing and parsing back is a round trip on feature lists: parsing
    the normalized text gives the list parsed from the input, so
    normalizing twice is normalizing once, and the features of the plan made
    from the stored row are those parsed from the form. *)
Theorem X2_feature_text_round_trip (s : string) (row : PlanRow.t) :
  PlanRow.features row = Some (normalizeFeatures s) ->
  parseFeatures (normalizeFeatures s) = parseFeatures s /\
  normalizeFeatures (normalizeFeatures s) = normalizeFeatures s /\
  HMSPlan.features (planOfRow row) = parseFeatures s.
Proof.
  intros Hrow.
  assert (H : parseFeatures (normalizeFeatures s) = parseFeatures s).
  { unfold normalizeFeatures. apply parseFeatures_join, parseFeatures_entries. }
  split; [exact H|]. split.
  - unfold normalizeFeatures at 1. now rewrite H.
  - unfold planOfRow. simpl. rewrite Hrow, H.
    destruct (JS.truthy (normalizeFeatures s)) eqn:T; [reflexivity|].
    rewrite <- H. destruct (normalizeFeatures s); [reflexivity|discriminate].
Qed.

Lemma X2_feature_text_round_trip_witness :
  HMSPlan.features
    (planOfRow {| PlanRow.id := "9"; PlanRow.name := "Basic";
                  PlanRow.price := "$10";
                  PlanRow.features := Some (normalizeFeatures " Wifi ,, Support,");
                  PlanRow.is_primary := Some false;
                  PlanRow.created_at := None |})
  = parseFeatures " Wifi ,, Support,".
Proof.
  apply (X2_feature_text_round_trip " Wifi ,, Support,"
           {| PlanRow.id := "9"; PlanRow.name := "Basic";
              PlanRow.price := "$10";
              PlanRow.features := Some (normalizeFeatures " Wifi ,, Support,");
              PlanRow.is_primary := Some false;
              PlanRow.created_at := None |} eq_refl).
Defined.

(** ** Sanitized file names *)

Lemma map_chars_length (f : ascii -> ascii) (s : string) :
  String.length (JS.map_chars f s) = String.length s.
Proof. induction s as [|c s IH]; simpl; [reflexivity | now rewrite IH]. Qed.

Lemma sanitize_char_idem (c : ascii) :
  let g := fun c => if JS.in_class_alnum_dot c then JS.lower_char c
                    else "_"%char in
  g (g c) = g c.
Proof. destruct c as [[] [] [] [] [] [] [] []]; reflexivity. Qed.

Lemma sanitize_char_fixed (c : ascii) :
  stored_char c = true ->
  (if JS.in_class_alnum_dot c then JS.lower_char c else "_"%char) = c.
Proof.
  destruct c as [[] [] [] [] [] [] [] []]; intros H;
    first [reflexivity | discriminate H].
Qed.

(** X3. Sanitizing keeps the length of a name, changes nothing in a name
    made of lower-case letters, digits, dots and underscores only, and so
    sanitizing a sanitized name changes nothing. *)
Theorem X3_sanitize_idempotent (name : string) :
  String.length (sanitizeName name) = String.length name /\
  (all_chars stored_char name = true -> sanitizeName name = name) /\
  sanitizeName (sanitizeName name) = sanitizeName name.
Proof.
  split; [|split].
  - rewrite sanitizeName_charwise. apply map_chars_length.
  - rewrite sanitizeName_charwise.
    induction name as [|c s IH]; simpl; [reflexivity|].
    intros H. apply andb_true_iff in H as [Hc Hs].
    now rewrite (sanitize_char_fixed c Hc), (IH Hs).
  - rewrite !sanitizeName_charwise.
    induction name as [|c s IH]; simpl; [reflexivity|].
    rewrite IH. f_equal. apply sanitize_char_idem.
Qed.

Lemma X3_sanitize_idempotent_witness :
  sanitizeName "ward_2.final.png" = "ward_2.final.png".
Proof.
  exact (proj1 (proj2 (X3_sanitize_idempotent "ward_2.final.png")) eq_refl).
Defined.

(** ** More on the order of plans *)

Lemma insert_in_front (x : HMSPlan.t) (l : list HMSPlan.t) :
  Forall (notAfter x) l -> insert comparePlans x l = x :: l.
Proof.
  destruct 1 as [|y l Hy Hl]; simpl; [reflexivity|].
  unfold notAfter in Hy. now rewrite Hy.
Qed.

Lemma filter_insert (P : HMSPlan.t -> bool) (x : HMSPlan.t)
    (l : list HMSPlan.t) :
  StronglySorted notAfter l ->
  filter P (insert comparePlans x l) =
  if P x then insert comparePlans x (filter P l) else filter P l.
Proof.
  induction 1 as [|y l Hs IH Hy]; simpl.
  - destruct (P x); reflexivity.
  - destruct (Qle_bool (comparePlans x y) 0) eqn:E; simpl.
    + destruct (P x) eqn:Px; [|reflexivity].
      symmetry. apply insert_in_front.
      assert (Hall : Forall (notAfter x) (y :: l)).
      { constructor; [exact E|]. eapply Forall_impl; [|exact Hy].
        intros z Hz. eapply notAfter_trans; eassumption. }
      destruct (P y).
      * constructor; [exact E|].
        inversion Hall; subst.
        rewrite Forall_forall in *. intros z Hz.
        apply filter_In in Hz as [Hz _]. auto.
      * inversion Hall; subst.
        rewrite Forall_forall in *. intros z Hz.
        apply filter_In in Hz as [Hz _]. auto.
    + rewrite IH. destruct (P y), (P x); simpl; try rewrite E; reflexivity.
Qed.

Lemma sortPlans_filter (P : HMSPlan.t -> bool) (l : list HMSPlan.t) :
  filter P (sortPlans l) = sortPlans (filter P l).
Proof.
  induction l as [|x l IH]; [reflexivity|].
  change (sortPlans (x :: l)) with (insert comparePlans x (sortPlans l)).
  rewrite (filter_insert P x _ (sortPlans_sorted l)), IH. simpl.
  destruct (P x); reflexivity.
Qed.

Lemma sortPlans_of_sorted (l : list HMSPlan.t) :
  StronglySorted notAfter l -> sortPlans l = l.
Proof.
  induction 1 as [|x l Hs IH Hx]; [reflexivity|].
  change (sortPlans (x :: l)) with (insert comparePlans x (sortPlans l)).
  rewrite IH. now apply insert_in_front.
Qed.

Lemma tie_iff (a b : HMSPlan.t) :
  tie a b = true <-> notAfter a b /\ notAfter b a.
Proof.
  unfold tie, notAfter, comparePlans. rewrite Qeq_bool_iff, !Qle_bool_iff.
  destruct (HMSPlan.isPrimary a), (HMSPlan.isPrimary b); simpl;
    split; try (intros [H1 H2]); try intros H; try split; lra.
Qed.

Lemma ties_before_insert (p x : HMSPlan.t) (l : list HMSPlan.t) :
  tie p x = true ->
  StronglySorted notAfter l ->
  filter (tie p) (insert comparePlans x l) = x :: filter (tie p) l.
Proof.
  intros Hpx. induction 1 as [|y l Hs IH Hy]; simpl.
  - now rewrite Hpx.
  - destruct (Qle_bool (comparePlans x y) 0) eqn:E; simpl.
    + now rewrite Hpx.
    + rewrite IH. destruct (tie p y) eqn:T; [|reflexivity].
      exfalso. apply tie_iff in Hpx as [H1 H2]. apply tie_iff in T as [H3 H4].
      assert (notAfter x y) by (eapply notAfter_trans; eassumption).
      unfold notAfter in H. congruence.
Qed.

(** X4. The sort of [fetchPlans] is stable and idempotent: the plans that
    tie with a given plan (same primary flag, same creation seconds) keep the
    order in which the backend returned them, and sorting a sorted plan list
    changes nothing. *)
Theorem X4_sort_stable_and_idempotent (l : list HMSPlan.t) (p : HMSPlan.t) :
  filter (tie p) (sortPlans l) = filter (tie p) l /\
  sortPlans (sortPlans l) = sortPlans l.
Proof.
  split; [|apply sortPlans_of_sorted, sortPlans_sorted].
  induction l as [|x l IH]; [reflexivity|].
  change (sortPlans (x :: l)) with (insert comparePlans x (sortPlans l)).
  simpl. destruct (tie p x) eqn:T.
  - rewrite (ties_before_insert p x _ T (sortPlans_sorted l)). now rewrite IH.
  - rewrite (filter_insert (tie p) x _ (sortPlans_sorted l)), T. exact IH.
Qed.

(** X5. A plan whose row has no creation time, or one that is no date, is
    ordered as if created at the epoch: in the fetched list it stands before
    every plan of its group created after 1970. *)
Theorem X5_missing_creation_time_sorts_first
    (s : Sys) (i j : nat) (r1 r2 : PlanRow.t) (ms : Z) :
  nextFault s = NoFault ->
  PlanRow.created_at r1 = None \/ PlanRow.created_at r1 = Some Unparseable ->
  PlanRow.created_at r2 = Some (Iso ms) ->
  0 < ms ->
  PlanRow.is_primary r1 = PlanRow.is_primary r2 ->
  nth_error (plans (admin (exec fetchPlans s))) i = Some (planOfRow r1) ->
  nth_error (plans (admin (exec fetchPlans s))) j = Some (planOfRow r2) ->
  (i < j)%nat.
Proof.
  intros Hok H1 H2 Hms Hp. unfold exec. rewrite (fetchPlans_ok s Hok). simpl.
  intros Hi Hj. eapply sortPlans_places; [exact Hi | exact Hj |].
  unfold comparePlans, secondsOrZero, planOfRow. cbn [HMSPlan.isPrimary HMSPlan.createdAt].
  rewrite Hp, Bool.eqb_reflx, H2. cbn [negb seconds secondsOfText].
  rewrite orZero_eq.
  assert (Hq : (0 < inject_Z ms / 1000)%Q).
  { apply Qlt_shift_div_l; [reflexivity|]. rewrite Qmult_0_l.
    change 0%Q with (inject_Z 0). now rewrite <- Zlt_Qlt. }
  destruct H1 as [-> | ->]; cbn; lra.
Qed.

Lemma X5_missing_creation_time_sorts_first_witness : (0 < 1)%nat.
Proof.
  apply (X5_missing_creation_time_sorts_first Undated.system 0 1
           Undated.legacy Sample.pro 1700000002000);
    [reflexivity | left; reflexivity | reflexivity | lia | reflexivity
    | reflexivity | reflexivity].
Defined.

(** ** The client-side gate *)

Ltac crunch_ui :=
  cbv beta iota delta
    [onEvent onPrompt handleDeletePlanPrompt handleDeleteMediaPrompt
     cancelDeletion handleNewPlanChange handleFileChange];
  crunch.

(** What no event of a visitor changes. *)
Lemma onEvent_not_admin (e : UiEvent) (s : Sys) :
  isAdmin (admin s) = false ->
  result (onEvent e) s = Ok tt /\
  log (exec (onEvent e) s) = log s /\
  backend (exec (onEvent e) s) = backend s /\
  plans (admin (exec (onEvent e) s)) = plans (admin s) /\
  mediaItems (admin (exec (onEvent e) s)) = mediaItems (admin s) /\
  isAdmin (admin (exec (onEvent e) s)) = false.
Proof.
  split_state s. cbn [admin isAdmin]. intros ->.
  destruct e as [t| |f| |p| |id]; try destruct p; try destruct t;
    crunch_ui; repeat split.
Qed.

(** X6. A visitor who is not an administrator cannot reach the backend
    through the dashboard: whatever sequence of form edits, submissions, file
    choices, uploads, delete prompts, confirmations and toast dismissals is
    run, no call is issued, the backend and the two collections are
    unchanged, nothing throws, and the visitor is still no administrator. *)
Theorem X6_visitor_issues_no_call (es : list UiEvent) (s : Sys) :
  isAdmin (admin s) = false ->
  result (onEvents es) s = Ok tt /\
  issued (onEvents es) s = [] /\
  backend (exec (onEvents es) s) = backend s /\
  plans (admin (exec (onEvents es) s)) = plans (admin s) /\
  mediaItems (admin (exec (onEvents es) s)) = mediaItems (admin s) /\
  isAdmin (admin (exec (onEvents es) s)) = false.
Proof.
  assert (H : forall es s, isAdmin (admin s) = false ->
    result (onEvents es) s = Ok tt /\
    log (exec (onEvents es) s) = log s /\
    backend (exec (onEvents es) s) = backend s /\
    plans (admin (exec (onEvents es) s)) = plans (admin s) /\
    mediaItems (admin (exec (onEvents es) s)) = mediaItems (admin s) /\
    isAdmin (admin (exec (onEvents es) s)) = false).
  { clear. induction es as [|e es IH]; intros s Hs.
    - repeat split. exact Hs.
    - destruct (onEvent_not_admin e s Hs) as (Hr & H1 & H2 & H3 & H4 & H5).
      unfold result, exec in *. simpl. unfold bind.
      destruct (onEvent e s) as [[[]|err] s1]; simpl in *; [|discriminate].
      destruct (IH s1 H5) as (Gr & G1 & G2 & G3 & G4 & G5).
      unfold result, exec in *.
      repeat split; congruence. }
  intros Hs. destruct (H es s Hs) as (Hr & H1 & H2 & H3 & H4 & H5).
  repeat split; try assumption.
  unfold issued. rewrite H1. apply skipn_log_same.
Qed.

Lemma X6_visitor_issues_no_call_witness :
  issued (onEvents [SubmitPlanForm; ClickUpload;
                    DeletePrompt (ClickDeletePlan (planOfRow Sample.gold));
                    ClickConfirmDelete]) visitor = [].
Proof.
  apply (X6_visitor_issues_no_call
           [SubmitPlanForm; ClickUpload;
            DeletePrompt (ClickDeletePlan (planOfRow Sample.gold));
            ClickConfirmDelete] visitor eq_refl).
Defined.

Example visitor_gets_permission_toasts :
  map ToastMessage.message
    (toasts (admin (exec (onEvents [SubmitPlanForm; ClickUpload]) visitor))) =
  ["Permission Denied: You must be an administrator.";
   "Permission Denied: You must be an administrator."].
Proof. reflexivity. Qed.

(** ** Timers and the expiry of toasts *)

Lemma filter_filter_and {A : Type} (f g : A -> bool) (l : list A) :
  filter g (filter f l) = filter (fun x => (f x && g x)%bool) l.
Proof.
  induction l as [|x l IH]; simpl; [reflexivity|].
  destruct (f x); simpl; [destruct (g x)|]; now rewrite IH.
Qed.

Lemma filter_all {A : Type} (l : list A) : filter (fun _ => true) l = l.
Proof. induction l as [|x l IH]; simpl; [reflexivity | now rewrite IH]. Qed.

(** The timer callbacks only filter the toasts and reset the progress. *)
Lemma fireAll_run (acts : list TimerAction) (s : Sys) :
  result (fireAll acts) s = Ok tt /\
  toasts (admin (exec (fireAll acts) s)) =
  filter (survives acts) (toasts (admin s)) /\
  plans (admin (exec (fireAll acts) s)) = plans (admin s) /\
  mediaItems (admin (exec (fireAll acts) s)) = mediaItems (admin s) /\
  backend (exec (fireAll acts) s) = backend s /\
  log (exec (fireAll acts) s) = log s /\
  clock (exec (fireAll acts) s) = clock s /\
  timers (exec (fireAll acts) s) = timers s.
Proof.
  revert s. induction acts as [|act acts IH]; intros s.
  - simpl. unfold survives. simpl. rewrite filter_all. repeat split.
  - unfold result, exec in *. simpl fireAll. unfold bind.
    destruct act as [id|]; simpl.
    + destruct (IH (with_admin s
                      (with_toasts (admin s)
                         (filter (otherThan id) (toasts (admin s))))))
        as (Hr & Ht & Hp & Hm & Hb & Hl & Hc & Hti).
      simpl in *. rewrite Ht, filter_filter_and. repeat split; assumption.
    + destruct (IH (with_admin s (with_uploadProgress (admin s) 0)))
        as (Hr & Ht & Hp & Hm & Hb & Hl & Hc & Hti).
      simpl in *. repeat split; assumption.
Qed.

Lemma elapse_run (dt : Z) (s : Sys) :
  result (elapse dt) s = Ok tt /\
  toasts (admin (exec (elapse dt) s)) =
  filter (survives (dueActions dt s)) (toasts (admin s)) /\
  timers (exec (elapse dt) s) =
  filter (fun t => negb (due t <=? clock s + dt)) (timers s) /\
  clock (exec (elapse dt) s) = clock s + dt /\
  plans (admin (exec (elapse dt) s)) = plans (admin s) /\
  mediaItems (admin (exec (elapse dt) s)) = mediaItems (admin s) /\
  backend (exec (elapse dt) s) = backend s /\
  log (exec (elapse dt) s) = log s.
Proof.
  unfold elapse, dueActions.
  set (s1 := with_timers (with_clock s (clock s + dt))
               (filter (fun t => negb (due t <=? clock s + dt)) (timers s))).
  destruct (fireAll_run
              (map action (filter (fun t => due t <=? clock s + dt) (timers s)))
              s1) as (Hr & Ht & Hp & Hm & Hb & Hl & Hc & Hti).
  unfold result, exec in *. repeat split; assumption.
Qed.

(** X7. Letting time pass runs the callbacks of the timers that are due and
    only those: the toasts left are the ones that no due expiry names, the
    timers left are the ones not yet due, the clock has advanced, and the
    collections, the backend and the log of calls are untouched. *)
Theorem X7_elapse_fires_due_timers (dt : Z) (s : Sys) :
  result (elapse dt) s = Ok tt /\
  toasts (admin (exec (elapse dt) s)) =
  filter (survives (dueActions dt s)) (toasts (admin s)) /\
  timers (exec (elapse dt) s) =
  filter (fun t => negb (due t <=? clock s + dt)) (timers s) /\
  clock (exec (elapse dt) s) = clock s + dt /\
  plans (admin (exec (elapse dt) s)) = plans (admin s) /\
  mediaItems (admin (exec (elapse dt) s)) = mediaItems (admin s) /\
  backend (exec (elapse dt) s) = backend s /\
  log (exec (elapse dt) s) = log s.
Proof. apply elapse_run. Qed.

Lemma survives_named (acts : list TimerAction) (toast : ToastMessage.t) :
  In (ExpireToast (ToastMessage.id toast)) acts -> survives acts toast = false.
Proof.
  induction acts as [|a acts IH]; simpl; [intros []|].
  intros [-> | H].
  - unfold otherThan. now rewrite String.eqb_refl.
  - rewrite (IH H). apply andb_false_r.
Qed.

Lemma survives_unnamed (acts : list TimerAction) (toast : ToastMessage.t) :
  ~ In (ExpireToast (ToastMessage.id toast)) acts -> survives acts toast = true.
Proof.
  induction acts as [|a acts IH]; simpl; [reflexivity|].
  intros H. rewrite IH by tauto. rewrite andb_true_r.
  destruct a as [id|]; [|reflexivity].
  unfold otherThan. destruct (String.eqb_spec (ToastMessage.id toast) id);
    [|reflexivity].
  subst. tauto.
Qed.

(** X8. A toast expires on its own: five seconds or more after [addToast],
    with no dismissal, no toast carries the identifier it was given. *)
Theorem X8_toast_auto_expires
    (s : Sys) (m : string) (ty : ToastType) (dt : Z) :
  5000 <= dt ->
  Forall (fun toast => ToastMessage.id toast <> JS.numberToString (clock s))
         (toasts (admin (exec (elapse dt) (exec (addToast m ty) s)))).
Proof.
  intros Hdt. rewrite Forall_forall. intros toast Hin Hid.
  destruct (elapse_run dt (exec (addToast m ty) s)) as (_ & Ht & _).
  rewrite Ht in Hin. apply filter_In in Hin as [_ Hs].
  rewrite survives_named in Hs; [discriminate|].
  rewrite Hid. unfold dueActions, exec. rewrite addToast_run. simpl.
  apply in_map_iff.
  exists {| due := clock s + 5000;
            action := ExpireToast (JS.numberToString (clock s)) |}.
  split; [reflexivity|]. apply filter_In. split.
  - apply in_or_app. right. now left.
  - simpl. apply Z.leb_le. lia.
Qed.

Lemma X8_toast_auto_expires_witness :
  Forall (fun toast => ToastMessage.id toast <> JS.numberToString (clock noticed))
         (toasts (admin (exec (elapse 5000)
                           (exec (addToast "Saved" ToastSuccess) noticed)))).
Proof.
  apply (X8_toast_auto_expires noticed "Saved" ToastSuccess 5000). lia.
Defined.

(** X9. A toast is not removed before its delay: less than five seconds
    after [addToast] it is still shown, unless a timer that is due names the
    same identifier. *)
Theorem X9_toast_stays_until_delay
    (s : Sys) (m : string) (ty : ToastType) (dt : Z) :
  dt < 5000 ->
  (forall tm, In tm (timers s) -> due tm <= clock s + dt ->
              action tm <> ExpireToast (JS.numberToString (clock s))) ->
  In {| ToastMessage.id := JS.numberToString (clock s);
        ToastMessage.message := m; ToastMessage.type := ty |}
     (toasts (admin (exec (elapse dt) (exec (addToast m ty) s)))).
Proof.
  intros Hdt Hfree.
  destruct (elapse_run dt (exec (addToast m ty) s)) as (_ & Ht & _).
  rewrite Ht. apply filter_In. split.
  - unfold exec. rewrite addToast_run. simpl. apply in_or_app. right. now left.
  - apply survives_unnamed. simpl. unfold dueActions, exec.
    rewrite addToast_run. simpl. intros Hin.
    apply in_map_iff in Hin as (tm & Ha & Hin).
    apply filter_In in Hin as [Hin Hdue]. apply Z.leb_le in Hdue.
    apply in_app_or in Hin as [Hin | [<- | []]].
    + exact (Hfree tm Hin Hdue Ha).
    + simpl in Hdue. lia.
Qed.

Lemma X9_toast_stays_until_delay_witness :
  In {| ToastMessage.id := JS.numberToString (clock noticed);
        ToastMessage.message := "Saved"; ToastMessage.type := ToastSuccess |}
     (toasts (admin (exec (elapse 4999)
                       (exec (addToast "Saved" ToastSuccess) noticed)))).
Proof.
  apply (X9_toast_stays_until_delay noticed "Saved" ToastSuccess 4999).
  - lia.
  - intros tm [<- | []] _. discriminate.
Defined.

(** ** Refreshing the collections *)

Lemma fetch_keeps_backend (s : Sys) :
  backend (exec fetchPlans s) = backend s /\
  backend (exec fetchMedia s) = backend s.
Proof. split_state s. split; crunch; reflexivity. Qed.

(** X10. A refresh reads and never writes: [fetchPlans] and [fetchMedia]
    leave the backend as it is, and a refresh that succeeds twice in a row
    stores the same collection both times. *)
Theorem X10_refetch_idempotent (s : Sys) :
  nextFault s = NoFault ->
  (backend (exec fetchPlans s) = backend s /\
   backend (exec fetchMedia s) = backend s) /\
  (nextFault (exec fetchPlans s) = NoFault ->
   plans (admin (exec fetchPlans (exec fetchPlans s))) =
   plans (admin (exec fetchPlans s))) /\
  (nextFault (exec fetchMedia s) = NoFault ->
   mediaItems (admin (exec fetchMedia (exec fetchMedia s))) =
   mediaItems (admin (exec fetchMedia s))).
Proof.
  intros H1. split; [apply fetch_keeps_backend|]. split; intros H2.
  - unfold exec at 1. rewrite (fetchPlans_ok _ H2). simpl.
    rewrite (proj1 (fetch_keeps_backend s)).
    unfold exec. now rewrite (fetchPlans_ok _ H1).
  - unfold exec at 1. rewrite (fetchMedia_ok _ H2). simpl.
    unfold select_media_desc. rewrite (proj2 (fetch_keeps_backend s)).
    unfold exec. now rewrite (fetchMedia_ok _ H1).
Qed.

Lemma X10_refetch_idempotent_witness :
  plans (admin (exec fetchPlans (exec fetchPlans Sample.quiet))) =
  plans (admin (exec fetchPlans Sample.quiet)).
Proof.
  apply (X10_refetch_idempotent Sample.quiet eq_refl). reflexivity.
Defined.

(** X11. The two refreshes share one [error] cell: when [fetchPlans] fails
    and a later [fetchMedia] succeeds, the failure text is cleared although
    the plan list is still the one from before the failed refresh. *)
Theorem X11_later_fetch_clears_error (s : Sys) :
  nextFault s <> NoFault ->
  nextFault (exec fetchPlans s) = NoFault ->
  error (admin (exec fetchPlans s)) = Some "Failed to fetch plans." /\
  error (admin (exec fetchMedia (exec fetchPlans s))) = None /\
  plans (admin (exec fetchMedia (exec fetchPlans s))) = plans (admin s).
Proof.
  intros H1 H2. unfold exec at 2 4. rewrite (fetchMedia_ok _ H2). simpl.
  destruct (fetchPlans_failed s H1) as (o & E & _).
  unfold exec. rewrite E. simpl. repeat split.
Qed.

Lemma X11_later_fetch_clears_error_witness :
  error (admin (exec fetchMedia
                  (exec fetchPlans
                     (Sample.system Sample.dashboard [failing 30])))) = None.
Proof.
  apply (X11_later_fetch_clears_error
           (Sample.system Sample.dashboard [failing 30]));
    [discriminate | reflexivity].
Defined.

(** ** Adding a plan, for any content of the form *)

Lemma stored_features_parse (s : string) :
  (if JS.truthy (normalizeFeatures s)
   then parseFeatures (normalizeFeatures s) else []) = parseFeatures s.
Proof.
  assert (H : parseFeatures (normalizeFeatures s) = parseFeatures s).
  { unfold normalizeFeatures. apply parseFeatures_join, parseFeatures_entries. }
  rewrite H. destruct (JS.truthy (normalizeFeatures s)) eqn:T; [reflexivity|].
  rewrite <- H. destruct (normalizeFeatures s); [reflexivity | discriminate].
Qed.

Ltac all_succeeded H :=
  cbn in H;
  try (exfalso;
       repeat match goal with
              | G : Forall _ (_ :: _) |- _ => inversion G; subst; clear G
              end;
       cbn in *; discriminate).

(** X12. Whatever the form holds, a submission by an administrator in which
    no call fails adds exactly one plan to a plan list that was in step with
    the table: the plan has the trimmed name and price, the feature list
    parsed from the form, the primary flag of the form and the clock reading
    of the submission as creation time.  The form is emptied, the busy flag
    is down, and one success toast naming the plan is added. *)
Theorem X12_add_plan_any_form (s : Sys) :
  isAdmin (admin s) = true ->
  plans (admin s) =
  sortPlans (map planOfRow (Backend.plans_table (backend s))) ->
  Forall (fun ev => outcome ev = Succeeded) (issued handleAddPlan s) ->
  exists p,
    Permutation (plans (admin (exec handleAddPlan s))) (p :: plans (admin s)) /\
    HMSPlan.name p = JS.trim (NewPlanData.name (newPlan (admin s))) /\
    HMSPlan.price p = JS.trim (NewPlanData.price (newPlan (admin s))) /\
    HMSPlan.features p =
    parseFeatures (NewPlanData.features (newPlan (admin s))) /\
    HMSPlan.isPrimary p = NewPlanData.isPrimary (newPlan (admin s)) /\
    HMSPlan.createdAt p =
    Some {| seconds := Num (inject_Z (clock s) / 1000) |} /\
    newPlan (admin (exec handleAddPlan s)) = emptyNewPlan /\
    isAddingPlan (admin (exec handleAddPlan s)) = false /\
    exists toast,
      toasts (admin (exec handleAddPlan s)) = (toasts (admin s) ++ [toast])%list /\
      ToastMessage.type toast = ToastSuccess /\
      ToastMessage.message toast =
      "Plan " ++ dq ++ JS.trim (NewPlanData.name (newPlan (admin s))) ++ dq
      ++ " added successfully!".
Proof.
  split_state s. cbn [admin isAdmin plans backend].
  intros -> -> .
  crunch; issued_list; intros Hall; all_succeeded Hall.
  all: clear Hall.
  all: cbn [Backend.plans_table Backend.insert_plan
            Backend.with_plans Backend.with_next_id].
  all: rewrite !map_app; cbn [map].
  all: eexists; split; [apply sortPlans_snoc|].
  all: do 3 (split; [first [reflexivity | apply stored_features_parse]|]).
  all: do 4 (split; [reflexivity|]).
  all: eexists; repeat split; reflexivity.
Qed.

Lemma X12_add_plan_any_form_witness :
  exists p,
    Permutation (plans (admin (exec handleAddPlan Sample.quiet)))
                (p :: plans (admin Sample.quiet)) /\
    HMSPlan.name p = "Basic".
Proof.
  destruct (X12_add_plan_any_form Sample.quiet)
    as (p & Hperm & Hname & _);
    [reflexivity | reflexivity | repeat constructor |].
  exists p. split; [exact Hperm | exact Hname].
Defined.

(** X13. A submission whose insert fails keeps what the user typed: the
    form and the backend are unchanged, the busy flag is down again, and the
    failed insert is the only call issued (no re-fetch follows). *)
Theorem X13_failed_add_keeps_form
    (s : Sys) (payload : PlanPayload.t) (o : Outcome) :
  In {| call := InsertPlan payload; outcome := o |} (issued handleAddPlan s) ->
  o <> Succeeded ->
  issued handleAddPlan s = [{| call := InsertPlan payload; outcome := o |}] /\
  newPlan (admin (exec handleAddPlan s)) = newPlan (admin s) /\
  isAddingPlan (admin (exec handleAddPlan s)) = false /\
  backend (exec handleAddPlan s) = backend s.
Proof.
  split_state s. crunch; issued_list.
  all: intros Hin Ho; cbn in Hin; split_In; try contradiction;
       try discriminate.
  all: try (exfalso; inversion Hin; subst; congruence).
  all: inversion Hin; subst; repeat split.
Qed.

Lemma X13_failed_add_keeps_form_witness :
  newPlan (admin (exec handleAddPlan
                    (Sample.system Sample.dashboard [failing 30]))) =
  newPlan Sample.dashboard.
Proof.
  apply (X13_failed_add_keeps_form
           (Sample.system Sample.dashboard [failing 30])
           {| PlanPayload.name := "Basic"; PlanPayload.price := "$10";
              PlanPayload.features := "Wifi, Support";
              PlanPayload.is_primary := false;
              PlanPayload.created_at := Iso 1700000010000 |}
           (ReturnedError Sample.denied));
    [left; reflexivity | discriminate].
Defined.

(** ** Uploading a file *)

Lemma upload_ok (path : string) (b b' : Backend.t) :
  Backend.upload path b = inr b' ->
  b' = Backend.with_objects b (Backend.objects b ++ [path])%list /\
  existsb (String.eqb path) (Backend.objects b) = false.
Proof.
  unfold Backend.upload.
  destruct (existsb (String.eqb path) (Backend.objects b));
    [discriminate|].
  intros H. injection H as <-. split; reflexivity.
Qed.

(** X14. An upload by an administrator in which no call fails stores the
    file under [public/media/] followed by the clock reading, an underscore
    and the sanitized name, a path that was free, and inserts one catalog row
    with that file name, the public address of the path and a time stamp
    taken at least 550 milliseconds after the start.  The media list is
    re-fetched, the chosen file is cleared, the progress stands at 100 with
    the busy flag down, and an info toast and a success toast are added. *)
Theorem X14_upload_stores_object_and_row (s : Sys) (f : File) :
  isAdmin (admin s) = true ->
  uploadFile (admin s) = Some f ->
  Forall (fun ev => outcome ev = Succeeded) (issued handleMediaUpload s) ->
  exists stamp,
    clock s + 550 <= stamp /\
    existsb (String.eqb (storagePathOf (clock s) f))
            (Backend.objects (backend s)) = false /\
    Backend.objects (backend (exec handleMediaUpload s)) =
    (Backend.objects (backend s) ++ [storagePathOf (clock s) f])%list /\
    Backend.media_table (backend (exec handleMediaUpload s)) =
    (Backend.media_table (backend s) ++
     [{| MediaRow.id := Backend.fresh_id (backend s);
         MediaRow.file_name := safeFileName (clock s) (file_name_of f);
         MediaRow.url :=
           Backend.public_url (storagePathOf (clock s) f) (backend s);
         MediaRow.uploaded_at := Some (Iso stamp) |}])%list /\
    Backend.plans_table (backend (exec handleMediaUpload s)) =
    Backend.plans_table (backend s) /\
    mediaItems (admin (exec handleMediaUpload s)) =
    map mediaOfRow (select_media_desc (backend (exec handleMediaUpload s))) /\
    uploadFile (admin (exec handleMediaUpload s)) = None /\
    isUploading (admin (exec handleMediaUpload s)) = false /\
    uploadProgress (admin (exec handleMediaUpload s)) = 100 /\
    map ToastMessage.type (toasts (admin (exec handleMediaUpload s))) =
    (map ToastMessage.type (toasts (admin s)) ++ [ToastInfo; ToastSuccess])%list.
Proof.
  split_state s. cbn [admin isAdmin uploadFile backend clock toasts].
  intros -> -> .
  crunch; issued_list; intros Hall; all_succeeded Hall.
  all: clear Hall.
  all: match goal with
       | H : Backend.upload _ _ = inr _ |- _ =>
           apply upload_ok in H as [-> Hfree]
       end.
  all: eexists; split;
       [|split; [exact Hfree
                |repeat split; try reflexivity;
                 rewrite !map_app; reflexivity]].
  all: lia.
Qed.

Lemma X14_upload_stores_object_and_row_witness :
  exists stamp,
    clock Sample.quiet + 550 <= stamp /\
    Backend.objects (backend (exec handleMediaUpload Sample.quiet)) =
    (Backend.objects (backend Sample.quiet) ++
     [storagePathOf (clock Sample.quiet) {| file_name_of := "My Photo!.png" |}])%list.
Proof.
  destruct (X14_upload_stores_object_and_row Sample.quiet
              {| file_name_of := "My Photo!.png" |})
    as (stamp & H1 & _ & H2 & _);
    [reflexivity | reflexivity | vm_compute; repeat constructor |].
  exists stamp. split; assumption.
Defined.

Example uploaded_object_path :
  Backend.objects (backend (exec handleMediaUpload Sample.quiet)) =
  ["public/media/1700000000500_ward.png";
   "public/media/1700000010000_my_photo_.png"].
Proof. vm_compute. reflexivity. Qed.

(** X15. No clean-up follows a failed insert: when the catalog insert of an
    upload fails, the object uploaded just before stays in storage without a
    catalog row, no remove call is issued, the media list and the chosen file
    are unchanged, and the failure ends in an error toast with the text of
    the error. *)
Theorem X15_failed_insert_leaves_orphan
    (s : Sys) (row : MediaPayload.t) (o : Outcome) :
  In {| call := InsertMedia row; outcome := o |} (issued handleMediaUpload s) ->
  o <> Succeeded ->
  exists f err toast info,
    uploadFile (admin s) = Some f /\
    (o = ReturnedError err \/ o = Rejected err) /\
    Backend.objects (backend (exec handleMediaUpload s)) =
    (Backend.objects (backend s) ++ [storagePathOf (clock s) f])%list /\
    Backend.media_table (backend (exec handleMediaUpload s)) =
    Backend.media_table (backend s) /\
    (forall paths o', ~ In {| call := StorageRemove paths; outcome := o' |}
                           (issued handleMediaUpload s)) /\
    mediaItems (admin (exec handleMediaUpload s)) = mediaItems (admin s) /\
    uploadFile (admin (exec handleMediaUpload s)) = Some f /\
    isUploading (admin (exec handleMediaUpload s)) = false /\
    toasts (admin (exec handleMediaUpload s)) =
    (toasts (admin s) ++ [info; toast])%list /\
    ToastMessage.type toast = ToastError /\
    ToastMessage.message toast = uploadFailedText err.
Proof.
  split_state s. crunch; issued_list.
  all: intros Hin Ho; cbn in Hin; split_In; try contradiction;
       try discriminate.
  all: try (exfalso; inversion Hin; subst; congruence).
  all: inversion Hin; subst; clear Hin.
  all: match goal with
       | H : Backend.upload _ _ = inr _ |- _ =>
           apply upload_ok in H as [-> Hfree]
       end.
  all: do 4 eexists.
  all: split; [reflexivity|].
  all: split; [first [left; reflexivity | right; reflexivity]|].
  all: do 2 (split; [reflexivity|]).
  all: split; [intros paths o' Hin; cbn in Hin; split_In;
               try contradiction; discriminate|].
  all: do 3 (split; [reflexivity|]).
  all: split; [reflexivity|].
  all: split; reflexivity.
Qed.

Lemma X15_failed_insert_leaves_orphan_witness :
  Backend.media_table (backend (exec handleMediaUpload orphaning)) =
  Backend.media_table (backend orphaning).
Proof.
  destruct (X15_failed_insert_leaves_orphan orphaning
              {| MediaPayload.file_name := "1700000010000_my_photo_.png";
                 MediaPayload.url :=
                   "https://example.supabase.co/storage/v1/object/public/artifacts/public/media/1700000010000_my_photo_.png";
                 MediaPayload.uploaded_at := Iso 1700000010590 |}
              (ReturnedError Sample.denied))
    as (f & err & toast & info & _ & _ & _ & H & _);
    [vm_compute; right; right; left; reflexivity | discriminate | exact H].
Defined.

Example orphan_object_stays :
  Backend.objects (backend (exec handleMediaUpload orphaning)) =
  ["public/media/1700000000500_ward.png";
   "public/media/1700000010000_my_photo_.png"] /\
  List.length (Backend.media_table (backend (exec handleMediaUpload orphaning)))
  = 1%nat.
Proof. vm_compute. split; reflexivity. Qed.

(** X16. An upload without a chosen file does nothing but tell the user:
    no call is issued, and the only change to the state is one error toast
    asking for a file (with its expiry timer). *)
Theorem X16_upload_without_file (s : Sys) :
  isAdmin (admin s) = true ->
  uploadFile (admin s) = None ->
  handleMediaUpload s =
  addToast "Please select a file to upload." ToastError s /\
  issued handleMediaUpload s = [] /\
  backend (exec handleMediaUpload s) = backend s /\
  toasts (admin (exec handleMediaUpload s)) =
  (toasts (admin s) ++
   [{| ToastMessage.id := JS.numberToString (clock s);
       ToastMessage.message := "Please select a file to upload.";
       ToastMessage.type := ToastError |}])%list.
Proof.
  split_state s. cbn [admin isAdmin uploadFile].
  intros -> ->. crunch. repeat split. apply skipn_log_same.
Qed.

Lemma X16_upload_without_file_witness :
  issued handleMediaUpload
    (Sample.system (with_uploadFile Sample.dashboard None) []) = [].
Proof.
  apply (X16_upload_without_file
           (Sample.system (with_uploadFile Sample.dashboard None) [])
           eq_refl eq_refl).
Defined.

(** ** Deleting, after the confirmation *)

(** X17. A media deletion can stop half way: when the delete of the
    catalog row fails, the stored object has already been removed while the
    row and the media list in memory remain, and the failure ends in an error
    toast. *)
Theorem X17_failed_row_delete_after_remove
    (s : Sys) (id : string) (o : Outcome) :
  In {| call := DeleteMediaById id; outcome := o |}
     (issued confirmDeletion s) ->
  o <> Succeeded ->
  exists path toast,
    In {| call := StorageRemove [path]; outcome := Succeeded |}
       (issued confirmDeletion s) /\
    Backend.objects (backend (exec confirmDeletion s)) =
    filter (fun obj => negb (existsb (String.eqb obj) [path]))
           (Backend.objects (backend s)) /\
    Backend.media_table (backend (exec confirmDeletion s)) =
    Backend.media_table (backend s) /\
    mediaItems (admin (exec confirmDeletion s)) = mediaItems (admin s) /\
    toasts (admin (exec confirmDeletion s)) =
    (toasts (admin s) ++ [toast])%list /\
    ToastMessage.type toast = ToastError.
Proof.
  split_state s. crunch; issued_list.
  all: intros Hin Ho; cbn in Hin; split_In; try contradiction;
       try discriminate.
  all: try (exfalso; inversion Hin; subst; congruence).
  all: clear Hin.
  all: do 2 eexists.
  all: split; [cbn; right; left; reflexivity|].
  all: repeat split; reflexivity.
Qed.

Lemma X17_failed_row_delete_after_remove_witness :
  Backend.media_table
    (backend (exec confirmDeletion (confirming [fine 20; fine 20; failing 30]))) =
  Backend.media_table (backend (confirming [fine 20; fine 20; failing 30])).
Proof.
  destruct (X17_failed_row_delete_after_remove
              (confirming [fine 20; fine 20; failing 30]) "4"
              (ReturnedError Sample.denied))
    as (path & toast & _ & _ & H & _);
    [vm_compute; right; right; left; reflexivity | discriminate | exact H].
Defined.

Example half_deleted_media :
  let s := exec confirmDeletion (confirming [fine 20; fine 20; failing 30]) in
  Backend.objects (backend s) = [] /\
  Backend.media_table (backend s) = [Sample.photo].
Proof. vm_compute. split; reflexivity. Qed.

Lemma filter_planOfRow (id : string) (l : list PlanRow.t) :
  map planOfRow
    (filter (fun r => negb (String.eqb (PlanRow.id r) id)) l) =
  filter (fun q => negb (hasPlanId id q)) (map planOfRow l).
Proof.
  induction l as [|r l IH]; simpl; [reflexivity|].
  unfold hasPlanId at 1. simpl.
  destruct (String.eqb (PlanRow.id r) id); simpl; now rewrite IH.
Qed.

(** X18. Prompt, then confirm, deletes exactly the prompted plan: when an
    administrator whose plan list is in step with the table confirms the
    deletion of a plan and no call fails, one delete call for that plan's id
    and one re-fetch are issued, the table loses the rows with that id, the
    plan list in memory is the list from before without the plans of that id,
    in the same order, the media are untouched, the modal is closed with
    nothing pending, and one success toast naming the plan is added. *)
Theorem X18_confirmed_plan_deletion (s : Sys) (p : HMSPlan.t) :
  isAdmin (admin s) = true ->
  plans (admin s) =
  sortPlans (map planOfRow (Backend.plans_table (backend s))) ->
  Forall (fun ev => outcome ev = Succeeded)
         (issued (bind (handleDeletePlanPrompt p) (fun _ => confirmDeletion)) s) ->
  map call
    (issued (bind (handleDeletePlanPrompt p) (fun _ => confirmDeletion)) s) =
  [DeletePlanById (HMSPlan.id p); SelectAllPlans] /\
  Backend.plans_table
    (backend (exec (bind (handleDeletePlanPrompt p)
                      (fun _ => confirmDeletion)) s)) =
  filter (fun r => negb (String.eqb (PlanRow.id r) (HMSPlan.id p)))
         (Backend.plans_table (backend s)) /\
  plans (admin (exec (bind (handleDeletePlanPrompt p)
                        (fun _ => confirmDeletion)) s)) =
  filter (fun q => negb (hasPlanId (HMSPlan.id p) q)) (plans (admin s)) /\
  Backend.media_table
    (backend (exec (bind (handleDeletePlanPrompt p)
                      (fun _ => confirmDeletion)) s)) =
  Backend.media_table (backend s) /\
  Backend.objects
    (backend (exec (bind (handleDeletePlanPrompt p)
                      (fun _ => confirmDeletion)) s)) =
  Backend.objects (backend s) /\
  DeleteConfirmationModal
    (admin (exec (bind (handleDeletePlanPrompt p)
                    (fun _ => confirmDeletion)) s)) = None /\
  itemToDelete
    (admin (exec (bind (handleDeletePlanPrompt p)
                    (fun _ => confirmDeletion)) s)) = None /\
  exists toast,
    toasts (admin (exec (bind (handleDeletePlanPrompt p)
                           (fun _ => confirmDeletion)) s)) =
    (toasts (admin s) ++ [toast])%list /\
    ToastMessage.type toast = ToastSuccess /\
    ToastMessage.message toast =
    "Plan " ++ dq ++ HMSPlan.name p ++ dq ++ " deleted successfully!".
Proof.
  split_state s. cbn [admin isAdmin plans backend].
  intros -> -> .
  crunch_ui; issued_list; intros Hall; all_succeeded Hall.
  clear Hall.
  split; [reflexivity|]. split; [reflexivity|].
  split.
  { cbn [Backend.plans_table Backend.delete_plan Backend.with_plans].
    rewrite filter_planOfRow. symmetry. apply sortPlans_filter. }
  do 4 (split; [reflexivity|]).
  eexists. repeat split; reflexivity.
Qed.

Lemma X18_confirmed_plan_deletion_witness :
  plans (admin (exec (bind (handleDeletePlanPrompt (planOfRow Sample.starter))
                        (fun _ => confirmDeletion)) Sample.quiet)) =
  filter (fun q => negb (hasPlanId "2" q)) (plans (admin Sample.quiet)).
Proof.
  apply (X18_confirmed_plan_deletion Sample.quiet (planOfRow Sample.starter));
    [reflexivity | reflexivity | vm_compute; repeat constructor].
Defined.

Example plan_list_after_deletion :
  map HMSPlan.name
    (plans (admin (exec (bind (handleDeletePlanPrompt (planOfRow Sample.starter))
                           (fun _ => confirmDeletion)) Sample.quiet))) =
  ["Gold"; "Pro"].
Proof. vm_compute. reflexivity. Qed.

(** X19. Confirming always closes the modal: with nothing pending,
    [confirmDeletion] changes nothing at all; with an item pending, whatever
    the network does, the modal is closed afterwards, and for an
    administrator the pending item is cleared, while for anyone else it is
    kept and no call is issued. *)
Theorem X19_confirm_closes_modal (s : Sys) :
  (itemToDelete (admin s) = None -> confirmDeletion s = (Ok tt, s)) /\
  (forall item,
      itemToDelete (admin s) = Some item ->
      showDeleteModal (admin (exec confirmDeletion s)) = false /\
      DeleteConfirmationModal (admin (exec confirmDeletion s)) = None /\
      (isAdmin (admin s) = true ->
       itemToDelete (admin (exec confirmDeletion s)) = None) /\
      (isAdmin (admin s) = false ->
       itemToDelete (admin (exec confirmDeletion s)) = Some item /\
       issued confirmDeletion s = [])).
Proof.
  split_state s. cbn [admin isAdmin itemToDelete]. split.
  - intros ->. reflexivity.
  - intros item ->. unfold DeleteConfirmationModal.
    crunch; repeat split; try discriminate; try reflexivity.
    all: apply skipn_log_same.
Qed.

Lemma X19_confirm_closes_modal_witness :
  showDeleteModal
    (admin (exec confirmDeletion (confirming [fine 20; failing 30]))) = false.
Proof.
  exact (proj1 (proj2 (X19_confirm_closes_modal
                         (confirming [fine 20; failing 30]))
                  pendingPhoto eq_refl)).
Defined.

(** ** The login form *)

(** X20. [handleLogin] calls the sign-in once, with the email and the
    password typed, and never throws.  It sends the user to [/admin] exactly
    when the sign-in reports no error, and then leaves the form busy with no
    error shown; otherwise the page stays where it is, the form is usable
    again and the error shown is the message of the reported error, word for
    word.  The email and password typed are kept in both cases. *)
Theorem X20_login_redirects_on_success (fate : Fault) (p : Login.t) :
  Login.href p <> "/admin" ->
  fst (Login.handleLogin fate p) = Ok tt /\
  Login.signIns (snd (Login.handleLogin fate p)) =
  (Login.signIns p ++ [(Login.email p, Login.password p)])%list /\
  (Login.href (snd (Login.handleLogin fate p)) = "/admin" <-> fate = NoFault) /\
  (fate = NoFault ->
   Login.isLoading (snd (Login.handleLogin fate p)) = true /\
   Login.error (snd (Login.handleLogin fate p)) = None) /\
  (forall err,
      fate = ErrorResult err \/ fate = Exception err ->
      Login.href (snd (Login.handleLogin fate p)) = Login.href p /\
      Login.isLoading (snd (Login.handleLogin fate p)) = false /\
      Login.error (snd (Login.handleLogin fate p)) = message err) /\
  Login.email (snd (Login.handleLogin fate p)) = Login.email p /\
  Login.password (snd (Login.handleLogin fate p)) = Login.password p.
Proof.
  intros Hp. split; [destruct fate; reflexivity|].
  split; [destruct fate; reflexivity|].
  split; [|split; [|split; [|split]]].
  - destruct fate; simpl; split; intros H;
      first [reflexivity | discriminate | now apply Hp in H].
  - intros ->. split; reflexivity.
  - intros e [-> | ->]; repeat split.
  - destruct fate; reflexivity.
  - destruct fate; reflexivity.
Qed.

Lemma X20_login_redirects_on_success_witness :
  Login.error
    (snd (Login.handleLogin
            (ErrorResult {| message := Some "Invalid login credentials" |})
            {| Login.email := "admin@hsv.co.ug"; Login.password := "guess";
               Login.error := None; Login.isLoading := false;
               Login.focusedField := None; Login.href := "/login";
               Login.signIns := [] |})) =
  Some "Invalid login credentials".
Proof.
  destruct (X20_login_redirects_on_success
              (ErrorResult {| message := Some "Invalid login credentials" |})
              {| Login.email := "admin@hsv.co.ug"; Login.password := "guess";
                 Login.error := None; Login.isLoading := false;
                 Login.focusedField := None; Login.href := "/login";
                 Login.signIns := [] |})
    as (_ & _ & _ & _ & H & _); [discriminate|].
  apply (H {| message := Some "Invalid login credentials" |}).
  left. reflexivity.
Defined.

(** ** Upload and deletion undo each other *)

Lemma filter_fresh_object (path : string) (l : list string) :
  existsb (String.eqb path) l = false ->
  filter (fun obj => negb (existsb (String.eqb obj) [path])) (l ++ [path]) = l.
Proof.
  intros H. rewrite filter_app. simpl. rewrite String.eqb_refl. simpl.
  rewrite app_nil_r.
  induction l as [|x l IH]; simpl in *; [reflexivity|].
  apply orb_false_iff in H as [Hx Hl].
  rewrite String.eqb_sym, Hx. simpl. now rewrite (IH Hl).
Qed.

Lemma filter_other_rows (id : string) (l : list MediaRow.t) (row : MediaRow.t) :
  Forall (fun r => MediaRow.id r <> id) l ->
  MediaRow.id row = id ->
  filter (fun r => negb (String.eqb (MediaRow.id r) id)) (l ++ [row]) = l.
Proof.
  intros Hl Hrow. rewrite filter_app. simpl. rewrite Hrow, String.eqb_refl.
  simpl. rewrite app_nil_r.
  induction Hl as [|x l Hx Hl IH]; simpl; [reflexivity|].
  destruct (String.eqb_spec (MediaRow.id x) id); [contradiction|].
  simpl. now rewrite IH.
Qed.

Lemma filter_fresh_row (id : string) (l : list MediaRow.t) (row : MediaRow.t) :
  Forall (fun r => MediaRow.id r <> id) l ->
  MediaRow.id row = id ->
  filter (fun r => String.eqb (MediaRow.id r) id) (l ++ [row]) = [row].
Proof.
  intros Hl Hrow. rewrite filter_app. simpl. rewrite Hrow, String.eqb_refl.
  induction Hl as [|x l Hx Hl IH]; simpl; [reflexivity|].
  destruct (String.eqb_spec (MediaRow.id x) id); [contradiction|].
  exact IH.
Qed.

(** X21. Deleting what was just uploaded restores the store: when an
    administrator uploads a file and then prompts for and confirms the
    deletion of the media item with the new row's id, and no call fails, the
    stored objects and the catalog rows are those from before the upload, and
    the media list is the one fetched from them.  The row's id is assumed not
    to be in use in the table. *)
Theorem X21_upload_then_delete_restores
    (s : Sys) (f : File) (item : MediaItem.t) :
  isAdmin (admin s) = true ->
  uploadFile (admin s) = Some f ->
  MediaItem.id item = Backend.fresh_id (backend s) ->
  Forall (fun r => MediaRow.id r <> Backend.fresh_id (backend s))
         (Backend.media_table (backend s)) ->
  Forall (fun ev => outcome ev = Succeeded) (issued (uploadThenDelete item) s) ->
  Backend.objects (backend (exec (uploadThenDelete item) s)) =
  Backend.objects (backend s) /\
  Backend.media_table (backend (exec (uploadThenDelete item) s)) =
  Backend.media_table (backend s) /\
  mediaItems (admin (exec (uploadThenDelete item) s)) =
  map mediaOfRow (select_media_desc (backend s)).
Proof.
  split_state s. destruct item as [iid iname iurl iup].
  cbn [admin isAdmin uploadFile backend MediaItem.id].
  intros -> -> -> Hfresh.
  unfold uploadThenDelete.
  crunch_ui; issued_list; intros Hall; all_succeeded Hall.
  all: clear Hall.
  all: match goal with
       | H : Backend.upload _ _ = inr _ |- _ =>
           apply upload_ok in H as [-> Hfree]
       end.
  all: match goal with
       | H : Backend.select_file_name _ _ = inr _ |- _ =>
           unfold Backend.select_file_name in H;
           cbn [ItemToDelete.id MediaItem.id Backend.media_table
                Backend.insert_media Backend.with_media Backend.with_next_id
                Backend.with_objects] in H;
           rewrite (filter_fresh_row _ _ _ Hfresh) in H; [|reflexivity];
           injection H as <-
       end.
  all: unfold select_media_desc.
  all: cbn [Backend.objects Backend.media_table Backend.remove
            Backend.delete_media Backend.insert_media Backend.with_media
            Backend.with_next_id Backend.with_objects ItemToDelete.id
            MediaItem.id file_name MediaRow.file_name MediaPayload.file_name].
  all: rewrite (filter_other_rows _ _ _ Hfresh) by reflexivity.
  all: split; [|split; reflexivity].
  all: apply filter_fresh_object; exact Hfree.
Qed.

Lemma X21_upload_then_delete_restores_witness :
  Backend.objects
    (backend (exec (uploadThenDelete
                      {| MediaItem.id := "5";
                         MediaItem.fileName := "1700000010000_my_photo_.png";
                         MediaItem.url := "";
                         MediaItem.uploadedAt := {| seconds := Num 0 |} |})
                Sample.quiet)) =
  Backend.objects (backend Sample.quiet).
Proof.
  apply (X21_upload_then_delete_restores Sample.quiet
           {| file_name_of := "My Photo!.png" |}
           {| MediaItem.id := "5";
              MediaItem.fileName := "1700000010000_my_photo_.png";
              MediaItem.url := "";
              MediaItem.uploadedAt := {| seconds := Num 0 |} |});
    [reflexivity | reflexivity | reflexivity
    | repeat constructor; discriminate
    | vm_compute; repeat constructor].
Defined.

(** ** Editing the plan form *)

(** X22. What is typed is what is submitted: after a change of each of
    the four inputs the form holds exactly the values typed, whatever it held
    before, and no call has been issued; a submission by an administrator
    then starts with an insert whose payload is the trimmed name and price,
    the normalized features, the checkbox and the clock reading.  A change of
    one input leaves the fields of the three others as they were. *)
Theorem X22_form_edits (s : Sys) (n p f : string) (b : bool) (target : PlanInput) :
  isAdmin (admin s) = true ->
  (newPlan (admin (exec (fillPlanForm n p b f) s)) =
   {| NewPlanData.name := n; NewPlanData.price := p;
      NewPlanData.features := f; NewPlanData.isPrimary := b |} /\
   issued (fillPlanForm n p b f) s = []) /\
  (exists o rest,
      issued (thenEvent (fillPlanForm n p b f) handleAddPlan) s =
      {| call := InsertPlan
                   {| PlanPayload.name := JS.trim n;
                      PlanPayload.price := JS.trim p;
                      PlanPayload.features := normalizeFeatures f;
                      PlanPayload.is_primary := b;
                      PlanPayload.created_at := Iso (clock s) |};
         outcome := o |} :: rest) /\
  (sameInput target (NameInput n) = false ->
   NewPlanData.name (newPlan (admin (exec (handleNewPlanChange target) s))) =
   NewPlanData.name (newPlan (admin s))) /\
  (sameInput target (PriceInput p) = false ->
   NewPlanData.price (newPlan (admin (exec (handleNewPlanChange target) s))) =
   NewPlanData.price (newPlan (admin s))) /\
  (sameInput target (IsPrimaryInput b) = false ->
   NewPlanData.isPrimary (newPlan (admin (exec (handleNewPlanChange target) s))) =
   NewPlanData.isPrimary (newPlan (admin s))) /\
  (sameInput target (FeaturesInput f) = false ->
   NewPlanData.features (newPlan (admin (exec (handleNewPlanChange target) s))) =
   NewPlanData.features (newPlan (admin s))).
Proof.
  split_state s. cbn [admin isAdmin]. intros ->.
  split; [split; [reflexivity | apply skipn_log_same]|].
  split.
  - cbv beta iota delta [fillPlanForm handleNewPlanChange].
    crunch; issued_list; do 2 eexists; reflexivity.
  - repeat split; intros H; destruct target; try discriminate H; reflexivity.
Qed.

Lemma X22_form_edits_witness :
  exists o rest,
    issued (thenEvent (fillPlanForm " Pro " "$30" true "x,y") handleAddPlan)
           Sample.quiet =
    {| call := InsertPlan
                 {| PlanPayload.name := JS.trim " Pro ";
                    PlanPayload.price := JS.trim "$30";
                    PlanPayload.features := normalizeFeatures "x,y";
                    PlanPayload.is_primary := true;
                    PlanPayload.created_at := Iso (clock Sample.quiet) |};
       outcome := o |} :: rest.
Proof.
  apply (X22_form_edits Sample.quiet " Pro " "$30" "x,y" true (NameInput "")).
  reflexivity.
Defined.

(** ** The first failure ends the operation *)

Ltac earlier_calls :=
  lazymatch goal with
  | |- exists pre, [?a] = _ /\ _ => exists []
  | |- exists pre, [?a; ?b] = _ /\ _ => exists [a]
  | |- exists pre, [?a; ?b; ?c] = _ /\ _ => exists [a; b]
  | |- exists pre, [?a; ?b; ?c; ?d] = _ /\ _ => exists [a; b; c]
  end;
  split; [reflexivity | repeat constructor].

Lemma handleAddPlan_stops (s : Sys) (ev : Event) :
  In ev (issued handleAddPlan s) -> outcome ev <> Succeeded ->
  exists pre, issued handleAddPlan s = (pre ++ [ev])%list /\
              Forall (fun e => outcome e = Succeeded) pre.
Proof.
  split_state s. crunch; issued_list; cbn [app].
  all: intros Hin Ho; cbn in Hin; split_In; try contradiction; subst ev;
       try (exfalso; apply Ho; reflexivity).
  all: earlier_calls.
Qed.

Lemma handleMediaUpload_stops (s : Sys) (ev : Event) :
  In ev (issued handleMediaUpload s) -> outcome ev <> Succeeded ->
  exists pre, issued handleMediaUpload s = (pre ++ [ev])%list /\
              Forall (fun e => outcome e = Succeeded) pre.
Proof.
  split_state s. crunch; issued_list; cbn [app].
  all: intros Hin Ho; cbn in Hin; split_In; try contradiction; subst ev;
       try (exfalso; apply Ho; reflexivity).
  all: earlier_calls.
Qed.

Lemma confirmDeletion_stops (s : Sys) (ev : Event) :
  In ev (issued confirmDeletion s) -> outcome ev <> Succeeded ->
  exists pre, issued confirmDeletion s = (pre ++ [ev])%list /\
              Forall (fun e => outcome e = Succeeded) pre.
Proof.
  split_state s. crunch; issued_list; cbn [app].
  all: intros Hin Ho; cbn in Hin; split_In; try contradiction; subst ev;
       try (exfalso; apply Ho; reflexivity).
  all: earlier_calls.
Qed.

(** X23. The first failed call ends an operation: in add plan, upload media
    and confirm deletion, a call that fails is the last call issued, and
    every call issued before it succeeded; no step is attempted after a
    failure and nothing is retried. *)
Theorem X23_first_failure_is_last_call (m : Mutation) (s : Sys) (ev : Event) :
  In ev (issued (mutate m) s) ->
  outcome ev <> Succeeded ->
  exists pre,
    issued (mutate m) s = (pre ++ [ev])%list /\
    Forall (fun e => outcome e = Succeeded) pre.
Proof.
  destruct m; simpl.
  - apply handleAddPlan_stops.
  - apply handleMediaUpload_stops.
  - apply confirmDeletion_stops.
Qed.

Lemma X23_first_failure_is_last_call_witness :
  exists pre,
    issued (mutate MutConfirmDeletion) (confirming [fine 20; failing 30]) =
    (pre ++ [{| call := StorageRemove ["public/media/1700000000500_ward.png"];
                outcome := ReturnedError Sample.denied |}])%list /\
    Forall (fun e => outcome e = Succeeded) pre.
Proof.
  apply (X23_first_failure_is_last_call MutConfirmDeletion
           (confirming [fine 20; failing 30]));
    [vm_compute; right; left; reflexivity | discriminate].
Defined.


(** ** The session check of a component that is gone *)

(** X24. When the component is unmounted before [getSession] settles, the
    session check changes no cell, however the call ends: the updates after a
    resolved call are skipped by the [mounted] flag, and those of the [catch]
    block are dropped by React.  The call has been issued once, the backend
    is as before and nothing throws. *)
Theorem X24_unmounted_session_check (s : Sys) :
  admin (exec (authEffect false) s) = admin s /\
  backend (exec (authEffect false) s) = backend s /\
  result (authEffect false) s = Ok tt /\
  exists o,
    log (exec (authEffect false) s) =
    (log s ++ [{| call := AuthGetSession; outcome := o |}])%list.
Proof.
  unfold exec, result, authEffect, try_catch, bind, await, whenMounted.
  destruct (nextFault s) as [|e|e]; simpl; repeat split; eauto.
Qed.

(** ** The two scenarios of the specification, through the handlers *)

(** C4. When the plan form holds the feature text ["a, ,b,,c "], the
    submission of an administrator starts with an insert whose payload
    carries the feature text ["a, b, c"] (segments between commas trimmed,
    empty ones dropped, the rest joined with a comma and a space); when the
    insert succeeds, that text is what the new row of the table stores, and
    when it fails the table is unchanged. *)
Theorem C4_feature_text_normalized (s : Sys) :
  isAdmin (admin s) = true ->
  NewPlanData.features (newPlan (admin s)) = "a, ,b,,c " ->
  exists payload o rest,
    issued handleAddPlan s =
    {| call := InsertPlan payload; outcome := o |} :: rest /\
    PlanPayload.features payload = "a, b, c" /\
    (o = Succeeded ->
     map PlanRow.features
       (Backend.plans_table (backend (exec handleAddPlan s))) =
     (map PlanRow.features (Backend.plans_table (backend s))
      ++ [Some "a, b, c"])%list) /\
    (o <> Succeeded ->
     Backend.plans_table (backend (exec handleAddPlan s)) =
     Backend.plans_table (backend s)).
Proof.
  split_state s. cbn [admin isAdmin newPlan].
  match goal with n : NewPlanData.t |- _ => destruct n end.
  cbn [NewPlanData.features]. intros -> ->.
  crunch; issued_list.
  all: do 3 eexists; split; [reflexivity|]; split; [reflexivity|].
  all: split; intros Ho; try discriminate Ho; try congruence.
  all: cbn; rewrite ?map_app; reflexivity.
Qed.

Lemma C4_feature_text_normalized_witness :
  exists payload o rest,
    issued handleAddPlan drafting =
    {| call := InsertPlan payload; outcome := o |} :: rest /\
    PlanPayload.features payload = "a, b, c" /\
    (o = Succeeded ->
     map PlanRow.features
       (Backend.plans_table (backend (exec handleAddPlan drafting))) =
     (map PlanRow.features (Backend.plans_table (backend drafting))
      ++ [Some "a, b, c"])%list) /\
    (o <> Succeeded ->
     Backend.plans_table (backend (exec handleAddPlan drafting)) =
     Backend.plans_table (backend drafting)).
Proof. apply (C4_feature_text_normalized drafting); reflexivity. Defined.

Example stored_text_of_draft :
  map PlanRow.features
    (Backend.plans_table (backend (exec handleAddPlan drafting))) =
  [Some "Wifi,Support"; None; Some "Wifi, Support, Training"; Some "a, b, c"].
Proof. vm_compute. reflexivity. Qed.


(** C6. When an administrator uploads the chosen file while the clock reads
    [t], the file is stored under [public/media/] followed by the decimal
    text of [t], an underscore and the sanitized name, in which every letter,
    digit and dot is kept in lower case and every other character is an
    underscore; when no call fails that name is the [file_name] of the new
    catalog row.  For the file ["My Photo!.png"] the name is the text of [t]
    followed by ["_my_photo_.png"]. *)
Theorem C6_safe_file_name_scenario (s : Sys) (f : File) :
  isAdmin (admin s) = true ->
  uploadFile (admin s) = Some f ->
  exists o rest,
    issued handleMediaUpload s =
    {| call := StorageUpload
                 ("public/media/" ++ JS.numberToString (clock s) ++ "_"
                  ++ lowercasedOrUnderscore (file_name_of f)) f;
       outcome := o |} :: rest /\
    (Forall (fun ev => outcome ev = Succeeded) (issued handleMediaUpload s) ->
     Backend.objects (backend (exec handleMediaUpload s)) =
     (Backend.objects (backend s) ++
      [("public/media/" ++ JS.numberToString (clock s) ++ "_"
        ++ lowercasedOrUnderscore (file_name_of f))%string])%list /\
     map MediaRow.file_name
       (Backend.media_table (backend (exec handleMediaUpload s))) =
     (map MediaRow.file_name (Backend.media_table (backend s)) ++
      [(JS.numberToString (clock s) ++ "_"
        ++ lowercasedOrUnderscore (file_name_of f))%string])%list) /\
    (file_name_of f = "My Photo!.png" ->
     JS.numberToString (clock s) ++ "_"
     ++ lowercasedOrUnderscore (file_name_of f) =
     JS.numberToString (clock s) ++ "_my_photo_.png").
Proof.
  split_state s. cbn [admin isAdmin uploadFile clock backend].
  intros -> ->. fold (lowercasedOrUnderscore (file_name_of f)).
  crunch; issued_list.
  all: unfold safeFileName; rewrite ?sanitizeName_charwise;
       fold (lowercasedOrUnderscore (file_name_of f)).
  all: do 2 eexists; split; [reflexivity|].
  all: split; [|intros ->; reflexivity].
  all: intros Hall; all_succeeded Hall.
  all: clear Hall.
  all: match goal with
       | H : Backend.upload _ _ = inr _ |- _ =>
           apply upload_ok in H as [-> Hfree]
       end.
  all: cbn [Backend.objects Backend.media_table Backend.insert_media
            Backend.with_media Backend.with_next_id Backend.with_objects].
  all: unfold safeFileName; rewrite ?sanitizeName_charwise;
       fold (lowercasedOrUnderscore (file_name_of f)).
  all: rewrite ?map_app; split; reflexivity.
Qed.

Lemma C6_safe_file_name_scenario_witness :
  exists o rest,
    issued handleMediaUpload Sample.quiet =
    {| call := StorageUpload "public/media/1700000010000_my_photo_.png"
                 {| file_name_of := "My Photo!.png" |};
       outcome := o |} :: rest.
Proof.
  destruct (C6_safe_file_name_scenario Sample.quiet {| file_name_of := "My Photo!.png" |}
              eq_refl eq_refl) as (o & rest & H & _).
  exists o, rest. exact H.
Defined.
